(** * gdp_cal.py: Portugal's GDP per capita against a 16-country basket

    A shallow embedding of the pipeline of [gdp_cal.py]
    (detect columns, filter by year, pivot, aggregate, report) together
    with the properties of its specification.

    Modelling conventions.
    - Python [str] is [string]; [str.lower] is modelled on the ASCII
      letters, the other characters are left as they are.  The keywords
      searched for are ASCII, so this decides the same matches.
    - A float64 cell read from the CSV is a finite number or NaN; it is
      modelled as [option Qc] ([None] is NaN, pandas' missing marker).
      The arithmetic on finite values is the exact one: the rounding,
      the order of summation and the overflow of float64 are not in the
      source and are not modelled.  [float64] adds the IEEE special
      values that a division can give.  The properties below therefore
      state which cells a result is computed from and when it is
      missing; they state a computed number only where float64 is
      exact, or within bounds that the rounding respects.
    - A [DataFrame] is a list of column labels and a list of rows, each
      row carrying its index label and its cells by column label.  The
      labels of a wide table are distinct, as [pivot_table] builds
      them; on repeated labels pandas selects several columns at once,
      which is not modelled.
    - Exceptions are values of [exn]; code that can raise returns a
      [result].
    - [main] is modelled from the return of [parse_args] on; the columns
      of the downloaded table hold what their role requires (years are
      integers, codes strings, values numbers). *)

From Stdlib Require Import ZArith List String Ascii Bool Lia.
From Stdlib Require Import QArith Qcanon Sorted.
Import ListNotations.

Open Scope string_scope.
Open Scope Z_scope.
Open Scope list_scope.

(** ** Python builtins used by the script *)

Module Py.

(** [str.lower] on one character of the ASCII range: a capital [A]-[Z]
    becomes [a]-[z], every other byte is kept. *)
Definition lower_ascii (a : ascii) : ascii :=
  let n := N_of_ascii a in
  if ((65 <=? n) && (n <=? 90))%N then ascii_of_N (n + 32) else a.

(** [s.lower()], on the ASCII letters of [s]. *)
Fixpoint lower (s : string) : string :=
  match s with
  | EmptyString => EmptyString
  | String a t => String (lower_ascii a) (lower t)
  end.

(** [kw in s] for two strings: [kw] occurs in [s] as a substring. *)
Fixpoint contains (kw s : string) : bool :=
  String.prefix kw s ||
  match s with
  | EmptyString => false
  | String _ t => contains kw t
  end.

(** [next((c for c in l if p(c)), None)] *)
Definition next {A} (p : A -> bool) (l : list A) : option A := find p l.

(** Truth value of a name bound to [None] or to a string. *)
Definition truthy (v : option string) : bool :=
  match v with
  | None => false
  | Some s => negb (String.eqb s "")
  end.

(** [all(l)] *)
Definition all (l : list (option string)) : bool := forallb truthy l.

(** [v is None] *)
Definition is_None {A} (v : option A) : bool :=
  match v with None => true | Some _ => false end.

(** The exceptions the pipeline meets.  [SystemExit] and
    [KeyboardInterrupt] do not derive from [Exception]. *)
Inductive label :=
| Lstr (s : string)
| Lint (z : Z).

(** The messages of the [ValueError]s of the pipeline: the one of
    [detect_columns], and the one of the [DataFrame] constructor. *)
Inductive error_message :=
| CouldNotDetect (missing available : list string)
| ArraysLength.

Inductive exn :=
| ValueError (msg : error_message)
| KeyError (key : label)
| HTTPError (msg : string)
| OSError (msg : string)
| RuntimeError (msg : string)
| KeyboardInterrupt.

(** [isinstance(e, Exception)], what [except Exception] catches. *)
Definition is_Exception (e : exn) : bool :=
  match e with KeyboardInterrupt => false | _ => true end.

Inductive result (A : Type) :=
| Ok (a : A)
| Raise (e : exn).
Arguments Ok {A} a.
Arguments Raise {A} e.

Definition bind {A B} (m : result A) (k : A -> result B) : result B :=
  match m with
  | Ok a => k a
  | Raise e => Raise e
  end.

End Py.

Import Py.

Notation "x <- m ;; k" := (Py.bind m (fun x => k))
  (at level 61, m at next level, right associativity).

(** ** Column detection *)

Definition is_year (c : string) : bool := contains "year" (lower c).
Definition is_country (c : string) : bool :=
  contains "entity" (lower c) || contains "country" (lower c).
Definition is_code (c : string) : bool := contains "code" (lower c).
Definition is_value (c : string) : bool := contains "gdp" (lower c).

(** [detect_columns(df)], on [df.columns]. *)
Definition detect_columns (columns : list string)
  : result (option string * option string * option string * option string) :=
  let year_col := next is_year columns in
  let country_col := next is_country columns in
  let code_col := next is_code columns in
  let value_col := next is_value columns in
  if negb (all [year_col; country_col; code_col; value_col]) then
    let missing :=
      map fst (filter (fun nv => is_None (snd nv))
                 [("year", year_col); ("country/entity", country_col);
                  ("code", code_col); ("gdp", value_col)]) in
    Raise (ValueError (CouldNotDetect missing columns))
  else Ok (year_col, country_col, code_col, value_col).

(** ** The pandas operations the script uses *)

Module Pandas.

(** A float64 read from the data: a finite number, or NaN ([None]). *)
Definition cell := option Qc.

(** A float64 produced by arithmetic. *)
Inductive float64 :=
| NaN
| Inf (negative : bool)
| Fin (q : Qc).

Definition of_cell (v : cell) : float64 :=
  match v with Some q => Fin q | None => NaN end.

(** [pd.isna] *)
Definition isna (x : float64) : bool :=
  match x with NaN => true | _ => false end.

Definition Zq (z : Z) : Qc := Q2Qc (inject_Z z).

Definition is_zero (q : Qc) : bool := Qc_eq_bool q (Zq 0).
Definition is_neg (q : Qc) : bool :=
  match (q ?= Zq 0)%Qc with Lt => true | _ => false end.

(** [x / y] on float64: IEEE 754 on the special values (a zero divisor
    is taken as +0.0), the exact quotient, which float64 rounds, on the
    others. *)
Definition truediv (x y : float64) : float64 :=
  match x, y with
  | NaN, _ => NaN
  | _, NaN => NaN
  | Inf _, Inf _ => NaN
  | Inf s, Fin b => Inf (xorb s (is_neg b))
  | Fin _, Inf _ => Fin (Zq 0)
  | Fin a, Fin b =>
      if is_zero b then (if is_zero a then NaN else Inf (is_neg a))
      else Fin (a / b)%Qc
  end.

(** [x * y] on float64. *)
Definition mul (x y : float64) : float64 :=
  match x, y with
  | NaN, _ => NaN
  | _, NaN => NaN
  | Inf s, Inf t => Inf (xorb s t)
  | Inf s, Fin b => if is_zero b then NaN else Inf (xorb s (is_neg b))
  | Fin a, Inf t => if is_zero a then NaN else Inf (xorb (is_neg a) t)
  | Fin a, Fin b => Fin (a * b)%Qc
  end.

(** A Series: the values with their index labels. *)
Definition Series (A : Type) := list (Z * A).

Definition s_index {A} (s : Series A) : list Z := map fst s.
Definition s_values {A} (s : Series A) : list A := map snd s.
Definition s_map {A B} (f : A -> B) (s : Series A) : Series B :=
  map (fun p => (fst p, f (snd p))) s.

(** A binary operation on two Series that carry the same index (here
    always the index of the wide table): element by element. *)
Definition s_binop {A B C} (f : A -> B -> C) (s : Series A) (t : Series B)
  : Series C :=
  map (fun p => (fst (fst p), f (snd (fst p)) (snd (snd p)))) (combine s t).

(** [s[mask] = v] *)
Definition mask_setitem {A} (s : Series A) (mask : Series bool) (v : A)
  : Series A :=
  s_binop (fun x (m : bool) => if m then v else x) s mask.

(** [pd.Series(index=idx, dtype=float)]: all NaN. *)
Definition empty_series (idx : list Z) : Series cell :=
  map (fun y => (y, None)) idx.

Record DataFrame := mkDataFrame {
  columns : list string;
  rows : list (Z * (string -> cell))
}.

Definition index (df : DataFrame) : list Z := map fst (rows df).

(** [c in df.columns] *)
Definition has_column (df : DataFrame) (c : string) : bool :=
  existsb (String.eqb c) (columns df).

(** [df[c]], the column labelled [c] of a frame whose labels are
    distinct. *)
Definition getitem (df : DataFrame) (c : string) : result (Series cell) :=
  if has_column df c then Ok (map (fun r => (fst r, snd r c)) (rows df))
  else Raise (KeyError (Lstr c)).

(** [df[[c1, ..., cn]]] for distinct labels. *)
Definition getitems (df : DataFrame) (names : list string)
  : result DataFrame :=
  match find (fun c => negb (has_column df c)) names with
  | Some c => Raise (KeyError (Lstr c))
  | None => Ok {| columns := names; rows := rows df |}
  end.

(** [df[name] = s]: replaces the column, or appends it. *)
Definition setitem (df : DataFrame) (name : string) (s : Series cell)
  : DataFrame :=
  {| columns := if has_column df name then columns df
                else columns df ++ [name];
     rows := map (fun p => (fst (fst p),
                            fun c => if String.eqb c name then snd (snd p)
                                     else snd (fst p) c))
               (combine (rows df) s) |}.

(** [df.at[y, c]] *)
Definition loc (df : DataFrame) (y : Z) (c : string) : result cell :=
  match find (fun r => fst r =? y) (rows df) with
  | Some r =>
      if has_column df c then Ok (snd r c) else Raise (KeyError (Lstr c))
  | None => Raise (KeyError (Lint y))
  end.

(** The cells of one row, in column order. *)
Definition row_values (df : DataFrame) (r : Z * (string -> cell))
  : list cell :=
  map (snd r) (columns df).

(** The non-missing values of a list of cells. *)
Fixpoint present (l : list cell) : list Qc :=
  match l with
  | [] => []
  | Some v :: t => v :: present t
  | None :: t => present t
  end.

Definition sum (l : list Qc) : Qc := fold_right Qcplus (Zq 0) l.

(** The arithmetic mean of a list of numbers, as the exact rational
    that the float64 mean approximates. *)
Definition mean (l : list Qc) : Qc :=
  (sum l / Zq (Z.of_nat (List.length l)))%Qc.

(** Mean of the non-missing cells; NaN when there is none. *)
Definition nanmean (l : list cell) : cell :=
  match present l with
  | [] => None
  | vs => Some (mean vs)
  end.

(** [df.count(axis=1)] *)
Definition count_axis1 (df : DataFrame) : Series Z :=
  map (fun r => (fst r, Z.of_nat (List.length (present (row_values df r)))))
    (rows df).

(** [df.mean(axis=1)] *)
Definition mean_axis1 (df : DataFrame) : Series cell :=
  map (fun r => (fst r, nanmean (row_values df r))) (rows df).

(** [v < n] on a cell of a numeric column; a NaN compares false. *)
Definition cell_ltb (v : cell) (n : Z) : bool :=
  match v with
  | Some q => match (q ?= Zq n)%Qc with Lt => true | _ => false end
  | None => false
  end.

End Pandas.

Import Pandas.

(** ** The long table and its pivot *)

(** A row of the downloaded table, read through the four detected
    columns (which [prepare_wide] renames to [year], [entity], [code] and
    [gdp_per_capita]).  The code and the value can be missing. *)
Record RawRow := mkRow {
  year : Z;
  entity : string;
  code : option string;
  gdp_per_capita : cell
}.

Section Usort.
Context {A : Type} (cmp : A -> A -> comparison).

Fixpoint insert_uniq (x : A) (l : list A) : list A :=
  match l with
  | [] => [x]
  | y :: t =>
      match cmp x y with
      | Lt => x :: l
      | Eq => l
      | Gt => y :: insert_uniq x t
      end
  end.

(** The distinct elements of [l], ascending. *)
Definition usort (l : list A) : list A := fold_right insert_uniq [] l.
End Usort.

(** Membership of a row in the group of the key [(y, c)]; a row without
    a code belongs to no group. *)
Definition in_group (y : Z) (c : string) (r : RawRow) : bool :=
  (year r =? y) &&
  match code r with
  | Some k => String.eqb k c
  | None => false
  end.

(** [GroupBy.first]: the first non-missing value of the group, in row
    order; NaN when the group has none. *)
Fixpoint first (y : Z) (c : string) (df : list RawRow) : cell :=
  match df with
  | [] => None
  | r :: t =>
      if in_group y c r then
        match gdp_per_capita r with
        | Some v => Some v
        | None => first y c t
        end
      else first y c t
  end.

(** The keys [(year, code)] whose aggregated value is not missing: the
    groups that survive [dropna]. *)
Definition observed_keys (df : list RawRow) : list (Z * string) :=
  flat_map (fun r =>
              match code r with
              | Some c =>
                  match first (year r) c df with
                  | Some _ => [(year r, c)]
                  | None => []
                  end
              | None => []
              end) df.

(** [df.pivot_table(index="year", columns="code", values="gdp_per_capita",
    aggfunc="first")].  pandas groups the rows by (year, code), leaving
    out the rows without a code, takes the first non-missing value of
    each group, drops the groups without any, and unstacks the codes:
    one row per year and one column per code of the observed keys, both
    sorted, the cell of a year and a code being the value of their group
    (NaN when they have none). *)
Definition pivot_table (df : list RawRow) : DataFrame :=
  let keys := observed_keys df in
  {| columns := usort String.compare (map snd keys);
     rows := map (fun y => (y, fun c => first y c df))
               (usort Z.compare (map fst keys)) |}.

(** ** The script *)

Definition OWID_URL : string :=
  "https://ourworldindata.org/grapher/gdp-per-capita-maddison-project-database.csv".
Definition DEVELOPED_16 : list string :=
  ["GBR"; "FRA"; "DEU"; "DNK"; "BEL"; "NLD"; "ESP"; "ITA"; "PRT"; "SWE";
   "AUT"; "USA"; "CAN"; "AUS"; "NZL"; "JPN"].
Definition PORTUGAL : string := "PRT".

(** [df[(df["year"] >= start_year) & (df["year"] <= end_year)]] *)
Definition year_filter (start_year end_year : Z) (df : list RawRow)
  : list RawRow :=
  filter (fun r => (year r >=? start_year) && (year r <=? end_year)) df.

(** [prepare_wide]: the rows are already read through the detected
    columns, which is what the renaming to the canonical names is for;
    then the filter on the year and the pivot. *)
Definition prepare_wide (df : list RawRow) (start_year end_year : Z)
  : DataFrame :=
  let df := year_filter start_year end_year df in
  let wide := pivot_table df in
  wide.

(** The result table: its four columns, by name. *)
Record OutFrame := mkOut {
  out_year : list Z;
  Portugal_gdp_pc : list cell;
  Media_16_gdp_pc : list cell;
  Portugal_pct_da_media_16 : list float64
}.

Definition out_header : list string :=
  ["year"; "Portugal_gdp_pc"; "Media_16_gdp_pc"; "Portugal_pct_da_media_16"].

(** [pd.DataFrame({...})] on the four columns: they must have the same
    length. *)
Definition DataFrame_of_dict (ys : list Z) (ps ms : list cell)
  (rs : list float64) : result OutFrame :=
  if (List.length ps =? List.length ys)%nat
     && (List.length ms =? List.length ys)%nat
     && (List.length rs =? List.length ys)%nat
  then Ok {| out_year := ys; Portugal_gdp_pc := ps; Media_16_gdp_pc := ms;
             Portugal_pct_da_media_16 := rs |}
  else Raise (ValueError ArraysLength).

(** The rows of the result table. *)
Fixpoint zip4 (ys : list Z) (ps ms : list cell) (rs : list float64)
  : list (Z * cell * cell * float64) :=
  match ys, ps, ms, rs with
  | y :: ys', p :: ps', m :: ms', r :: rs' =>
      (y, p, m, r) :: zip4 ys' ps' ms' rs'
  | _, _, _, _ => []
  end.

Definition records (out : OutFrame) : list (Z * cell * cell * float64) :=
  zip4 (out_year out) (Portugal_gdp_pc out) (Media_16_gdp_pc out)
    (Portugal_pct_da_media_16 out).

(** [compute_portugal_vs_mean]: returns the codes reported on standard
    error (empty when nothing is printed) and the result table. *)
Definition compute_portugal_vs_mean (wide : DataFrame)
  (developed_16 : list string) (portugal_code : string)
  : result (list string * OutFrame) :=
  let missing :=
    filter (fun c => negb (has_column wide c))
      (developed_16 ++ [portugal_code]) in
  avg16 <- getitems wide (filter (has_column wide) developed_16) ;;
  let avg16 :=
    setitem avg16 "count_non_na"
      (s_map (fun n => Some (Zq n)) (count_axis1 avg16)) in
  selected <- getitems avg16 (filter (has_column avg16) developed_16) ;;
  let avg16_mean := mean_axis1 selected in
  count_non_na <- getitem avg16 "count_non_na" ;;
  let avg16_mean :=
    mask_setitem avg16_mean (s_map (fun v => cell_ltb v 12) count_non_na)
      None in
  prt <- (if has_column wide portugal_code then getitem wide portugal_code
          else Ok (empty_series (index wide))) ;;
  let ratio :=
    s_map (fun x => mul x (Fin (Zq 100)))
      (s_binop truediv (s_map of_cell prt) (s_map of_cell avg16_mean)) in
  out <- DataFrame_of_dict (s_index ratio) (s_values prt)
           (s_values avg16_mean) (s_values ratio) ;;
  Ok (missing, out).

(** ** The command-line program *)

Record Args := mkArgs {
  source_url : string;
  start_year : Z;
  end_year : Z;
  out_csv : string;
  out_png : string
}.

Definition default_args : Args :=
  {| source_url := OWID_URL; start_year := 1870; end_year := 2022;
     out_csv := "portugal_vs_16_developed.csv";
     out_png := "grafico_portugal_pct_media16.png" |}.

(** The downloaded table: its column names and its rows.
    [raw_rows df y k v] are the rows with the year read in the column
    [y], the code in the column [k] and the value in the column [v]. *)
Record RawFrame := mkRaw {
  raw_columns : list string;
  raw_rows : string -> string -> string -> list RawRow
}.

(** [df.rename(columns={year_col: 'year', country_col: 'entity',
    code_col: 'code', value_col: 'gdp_per_capita'})] on one label: of
    two equal keys of the dictionary the later one counts, and a label
    that is no key is kept. *)
Definition is_key (col : option string) (l : string) : bool :=
  match col with
  | Some c => String.eqb c l
  | None => false
  end.

Definition rename_label
  (cols : option string * option string * option string * option string)
  (l : string) : string :=
  let '(year_col, country_col, code_col, value_col) := cols in
  if is_key value_col l then "gdp_per_capita"
  else if is_key code_col l then "code"
  else if is_key country_col l then "entity"
  else if is_key year_col l then "year"
  else l.

(** The columns that bear the label [name] once renamed. *)
Definition labelled
  (cols : option string * option string * option string * option string)
  (name : string) (columns : list string) : list string :=
  filter (fun l => String.eqb (rename_label cols l) name) columns.

(** What [prepare_wide] makes of the downloaded table: the wide table,
    or a table in which a label it reads names several columns. *)
Inductive prepared :=
| Wide (wide : DataFrame)
| DuplicateLabels.

(** [prepare_wide(df, year_col, country_col, code_col, value_col,
    start_year, end_year)] on the downloaded table.  Line 53 renames the
    columns; line 54 reads the column labelled [year] and raises a
    [KeyError] when there is none; line 55 pivots the columns labelled
    [year], [code] and [gdp_per_capita]: [pivot_table] first looks for
    the values and raises a [KeyError] when no column is labelled
    [gdp_per_capita], then groups by the keys and raises a [KeyError]
    when no column is labelled [code].  When each label names one
    column, the rows are filtered and pivoted. *)
Definition prepare_wide_df (df : RawFrame)
  (cols : option string * option string * option string * option string)
  (start_year end_year : Z) : result prepared :=
  match labelled cols "year" (raw_columns df) with
  | [] => Raise (KeyError (Lstr "year"))
  | [y] =>
      match labelled cols "gdp_per_capita" (raw_columns df) with
      | [] => Raise (KeyError (Lstr "gdp_per_capita"))
      | [v] =>
          match labelled cols "code" (raw_columns df) with
          | [] => Raise (KeyError (Lstr "code"))
          | [k] =>
              Ok (Wide (prepare_wide (raw_rows df y k v) start_year
                          end_year))
          | _ => Ok DuplicateLabels
          end
      | _ => Ok DuplicateLabels
      end
  | _ => Ok DuplicateLabels
  end.

(** What lies outside the program: the network, the file system and the
    plotting library.  [duplicate_labels] is what lines 119 and 120 do
    when a label that [prepare_wide] reads names several columns: the
    codes reported on standard error, and the result table or the
    exception raised.  pandas then works on several columns at once,
    which is not modelled. *)
Record World := mkWorld {
  download_csv : string -> result RawFrame;
  to_csv : OutFrame -> string -> result unit;
  plot_ratio : OutFrame -> string -> result unit;
  duplicate_labels : list string * result OutFrame
}.

Inductive message :=
| Downloading
| AvailableColumns (cols : list string)
| DetectError (exc : exn)
| UsingColumns (cols : option string * option string * option string
                       * option string)
| MissingData (codes : list string)
| CsvSaved (path : string)
| PngSaved (path : string)
| PlotError (e : exn).

(** What a run leaves behind, in order: a line on standard output, a
    line on standard error, a file whose writing call has returned. *)
Inductive event :=
| Stdout (m : message)
| Stderr (m : message)
| FileWritten (path : string).

(** How a run ends: [sys.exit(n)] or the end of [main] (status 0), or an
    exception nobody caught: the interpreter reports it with status 1,
    and ends by the interrupt signal, status 130, for a
    [KeyboardInterrupt]. *)
Inductive ending :=
| Exit (status : Z)
| Uncaught (e : exn).

Definition exit_status (e : ending) : Z :=
  match e with
  | Exit n => n
  | Uncaught KeyboardInterrupt => 130
  | Uncaught _ => 1
  end.

(** A computation of the program: what it printed and wrote, and either
    a value or the end of the run. *)
Definition io (A : Type) : Type := list event * (A + ending).

Definition ret {A} (a : A) : io A := ([], inl a).

Definition io_bind {A B} (m : io A) (k : A -> io B) : io B :=
  match m with
  | (t, inl a) => let (t', r) := k a in (t ++ t', r)
  | (t, inr e) => (t, inr e)
  end.

Notation "x <-- m ;; k" := (io_bind m (fun x => k))
  (at level 61, m at next level, right associativity).
Notation "m ;;; k" := (io_bind m (fun _ => k))
  (at level 61, right associativity).

Definition print (m : message) : io unit := ([Stdout m], inl tt).
Definition eprint (m : message) : io unit := ([Stderr m], inl tt).
Definition sys_exit {A} (n : Z) : io A := ([], inr (Exit n)).

(** Calling code that can raise, outside any [try]. *)
Definition call {A} (r : result A) : io A :=
  match r with
  | Ok a => ret a
  | Raise e => ([], inr (Uncaught e))
  end.

(** A call that writes [path] when it succeeds. *)
Definition call_writing (path : string) (r : result unit) : io unit :=
  match r with
  | Ok _ => ([FileWritten path], inl tt)
  | Raise e => ([], inr (Uncaught e))
  end.

(** [main], from the return of [parse_args] on. *)
Definition main (args : Args) (w : World) : io unit :=
  print Downloading ;;;
  df <-- call (download_csv w (source_url args)) ;;
  print (AvailableColumns (raw_columns df)) ;;;
  cols <-- match detect_columns (raw_columns df) with
           | Ok cols => ret cols
           | Raise (ValueError _ as exc) =>
               eprint (DetectError exc) ;;; sys_exit 1
           | Raise e => call (Raise e)
           end ;;
  print (UsingColumns cols) ;;;
  p <-- call (prepare_wide_df df cols (start_year args) (end_year args)) ;;
  out <-- match p with
          | Wide wide =>
              res <-- call (compute_portugal_vs_mean wide DEVELOPED_16
                              PORTUGAL) ;;
              (match fst res with
               | [] => ret tt
               | missing => eprint (MissingData missing)
               end) ;;;
              ret (snd res)
          | DuplicateLabels =>
              (match fst (duplicate_labels w) with
               | [] => ret tt
               | missing => eprint (MissingData missing)
               end) ;;;
              call (snd (duplicate_labels w))
          end ;;
  call_writing (out_csv args) (to_csv w out (out_csv args)) ;;;
  print (CsvSaved (out_csv args)) ;;;
  match plot_ratio w out (out_png args) with
  | Ok _ => ([FileWritten (out_png args)], inl tt) ;;;
            print (PngSaved (out_png args))
  | Raise e =>
      if is_Exception e then eprint (PlotError e)
      else call (Raise e)
  end.

(** The run of the program: the trace and the exit status. *)
Definition run (args : Args) (w : World) : list event * Z :=
  match main args w with
  | (t, inl _) => (t, 0)
  | (t, inr e) => (t, exit_status e)
  end.

(** ** Notions the properties are stated with *)

(** [kw] occurs in [s]. *)
Definition Substring (kw s : string) : Prop :=
  exists a b, s = (a ++ kw ++ b)%string.

(** The four logical fields, their names in the diagnostic and their
    keywords. *)
Inductive field := FYear | FCountry | FCode | FValue.

Definition all_fields : list field := [FYear; FCountry; FCode; FValue].

Definition field_name (f : field) : string :=
  match f with
  | FYear => "year"
  | FCountry => "country/entity"
  | FCode => "code"
  | FValue => "gdp"
  end.

Definition keywords (f : field) : list string :=
  match f with
  | FYear => ["year"]
  | FCountry => ["entity"; "country"]
  | FCode => ["code"]
  | FValue => ["gdp"]
  end.

(** The lowercased column name contains a keyword of the field. *)
Definition Matches (f : field) (c : string) : Prop :=
  exists kw, In kw (keywords f) /\ Substring kw (lower c).

(** [c] is the first column, in column order, that matches [f]. *)
Definition FirstMatch (f : field) (cols : list string) (c : string) : Prop :=
  exists pre post,
    cols = pre ++ c :: post /\ Matches f c /\
    forall x, In x pre -> ~ Matches f x.

Definition Unresolved (f : field) (cols : list string) : Prop :=
  forall c, In c cols -> ~ Matches f c.

(** What [detect_columns] bound to a field: its first match. *)
Definition Selected (f : field) (cols : list string) (v : option string)
  : Prop :=
  exists c, v = Some c /\ FirstMatch f cols c.

(** The test [detect_columns] applies for a field. *)
Definition matchesb (f : field) (c : string) : bool :=
  match f with
  | FYear => is_year c
  | FCountry => is_country c
  | FCode => is_code c
  | FValue => is_value c
  end.

(** The non-missing values of a row among the columns of the basket that
    the wide table has, in basket order. *)
Definition basket_values (basket : list string) (wide : DataFrame)
  (r : Z * (string -> cell)) : list Qc :=
  flat_map (fun c => if has_column wide c
                     then match snd r c with Some v => [v] | None => [] end
                     else []) basket.

(** The mean of the values, missing below the coverage of 12. *)
Definition masked_mean (vs : list Qc) : cell :=
  if (List.length vs <? 12)%nat then None else Some (mean vs).

(** Portugal's value in a row; missing when the table has no such
    column. *)
Definition portugal_value (wide : DataFrame) (portugal_code : string)
  (r : Z * (string -> cell)) : cell :=
  if has_column wide portugal_code then snd r portugal_code else None.

(** [(p / m) * 100] *)
Definition pct (p m : cell) : float64 :=
  mul (truediv (of_cell p) (of_cell m)) (Fin (Zq 100)).

(** The row of the result table for a row of the wide table. *)
Definition result_record (basket : list string) (portugal_code : string)
  (wide : DataFrame) (r : Z * (string -> cell))
  : Z * cell * cell * float64 :=
  let p := portugal_value wide portugal_code r in
  let m := masked_mean (basket_values basket wide r) in
  (fst r, p, m, pct p m).

(** How many columns of the basket have a non-missing value in a row. *)
Definition coverage (basket : list string) (wide : DataFrame)
  (r : Z * (string -> cell)) : nat :=
  List.length
    (filter (fun c => has_column wide c && negb (is_None (snd r c))) basket).

(** No label occurs twice. *)
Fixpoint distinct (l : list string) : bool :=
  match l with
  | [] => true
  | x :: t => negb (existsb (String.eqb x) t) && distinct t
  end.


(** The two stages of the pipeline after column detection. *)
Definition pipeline (df : list RawRow) (start_year end_year : Z)
  : result (list string * OutFrame) :=
  compute_portugal_vs_mean (prepare_wide df start_year end_year)
    DEVELOPED_16 PORTUGAL.

(** ** Sample inputs *)

Definition obs (y : Z) (e c : string) (v : Z) : RawRow :=
  mkRow y e (Some c) (Some (Zq v)).

(** Two rows for (1950, PRT): the first has no value. *)
Definition dup_missing_first : list RawRow :=
  [mkRow 1950 "Portugal" (Some "PRT") None; obs 1950 "Portugal" "PRT" 80].

(** Four rows for PRT, three of them in 1950. *)
Definition dup_rows : list RawRow :=
  [obs 1949 "Portugal" "PRT" 70; mkRow 1950 "Portugal" (Some "PRT") None;
   obs 1950 "Portugal" "PRT" 80; obs 1950 "Portugal" "PRT" 90].

(** Rows on and around the bounds 1870 and 2022. *)
Definition boundary_rows : list RawRow :=
  [obs 1869 "Portugal" "PRT" 1; obs 1870 "Portugal" "PRT" 2;
   obs 2022 "Portugal" "PRT" 3; obs 2023 "Portugal" "PRT" 4].

(** The scenario of 1950: Portugal at 80, the 15 other economies of the
    basket at 100. *)
Definition scenario_1950 : list RawRow :=
  obs 1950 "Portugal" "PRT" 80 :: obs 1950 "UK" "GBR" 100 ::
  map (fun c => obs 1950 c c 100)
    ["FRA"; "DEU"; "DNK"; "BEL"; "NLD"; "ESP"; "ITA"; "SWE"; "AUT"; "USA";
     "CAN"; "AUS"; "NZL"; "JPN"].

(** The wide table of the scenario and its only row. *)
Definition scenario_wide : DataFrame := prepare_wide scenario_1950 1950 1950.


(** The result table that the specification expects of the scenario. *)
Definition scenario_expected : OutFrame :=
  {| out_year := [1950];
     Portugal_gdp_pc := [Some (Zq 80)];
     Media_16_gdp_pc := [Some (Zq 100)];
     Portugal_pct_da_media_16 := [Fin (Zq 80)] |}.

(** The result table of the scenario in exact arithmetic: the mean is
    1580/16 = 98.75 and the ratio 80/98.75 * 100 = 6400/79, which
    float64 rounds to 81.0126582278481. *)
Definition scenario_result : OutFrame :=
  {| out_year := [1950];
     Portugal_gdp_pc := [Some (Zq 80)];
     Media_16_gdp_pc := [Some (Q2Qc (395 # 4))];
     Portugal_pct_da_media_16 := [Fin (Q2Qc (6400 # 79))] |}.

(** One year in which the 16 economies all have the value 0. *)
Definition zero_rows : list RawRow :=
  map (fun c => obs 1950 c c 0) DEVELOPED_16.

(** Three years with a value of 10 for 11, 12 and 16 economies of the
    basket. *)
Definition coverage_rows : list RawRow :=
  map (fun c => obs 1900 c c 10) (firstn 11 DEVELOPED_16)
  ++ map (fun c => obs 1901 c c 10) (firstn 12 DEVELOPED_16)
  ++ map (fun c => obs 1902 c c 10) DEVELOPED_16.

(** A wide table with one year and without Portugal. *)
Definition wide_without_portugal : DataFrame :=
  prepare_wide [obs 1950 "UK" "GBR" 100; obs 1950 "France" "FRA" 90]
    1950 1950.

(** The table of the scenario of 1950 under the header of Our World in
    Data: its rows, read in the columns of the year, the code and the
    value. *)
Definition scenario_table : RawFrame :=
  {| raw_columns := ["Entity"; "Code"; "Year"; "GDP per capita"];
     raw_rows := fun y k v =>
       if String.eqb y "Year" && String.eqb k "Code"
          && String.eqb v "GDP per capita"
       then scenario_1950 else [] |}.

(** The result table that the model computes for the scenario under the
    default bounds. *)
Definition scenario_out : OutFrame :=
  match pipeline scenario_1950 1870 2022 with
  | Ok (_, out) => out
  | Raise _ => scenario_result
  end.

(** A download without a code column and without a value column. *)
Definition world_bad_header : World :=
  {| download_csv := fun _ => Ok (mkRaw ["Entity"; "Year"] (fun _ _ _ => []));
     to_csv := fun _ _ => Ok tt;
     plot_ratio := fun _ _ => Ok tt;
     duplicate_labels := ([], Raise (ValueError ArraysLength)) |}.

(** A good download, and a plotting library that fails. *)
Definition world_plot_fails : World :=
  {| download_csv := fun _ => Ok scenario_table;
     to_csv := fun _ _ => Ok tt;
     plot_ratio := fun _ _ => Raise (OSError "cannot write the image");
     duplicate_labels := ([], Raise (ValueError ArraysLength)) |}.

(** ** Notions for the further properties *)

(** The outcome of a detection with every column name lowercased. *)
Definition lower_detected
  (r : option string * option string * option string * option string)
  : option string * option string * option string * option string :=
  let '(y, c, k, v) := r in
  (option_map lower y, option_map lower c, option_map lower k,
   option_map lower v).

Definition lower_outcome
  (r : result (option string * option string * option string
               * option string))
  : result (option string * option string * option string * option string) :=
  match r with
  | Ok t => Ok (lower_detected t)
  | Raise (ValueError (CouldNotDetect missing available)) =>
      Raise (ValueError (CouldNotDetect missing (map lower available)))
  | Raise e => Raise e
  end.

(** The header of the dataset of Our World in Data. *)
Definition owid_header : list string :=
  ["Entity"; "Code"; "Year"; "GDP per capita"].

(** The order of the column labels of a pivot. *)
Definition string_lt (a b : string) : Prop := String.compare a b = Lt.

(** The wide table without rows and without columns. *)
Definition empty_wide : DataFrame := {| columns := []; rows := [] |}.

(** The result table without rows. *)
Definition empty_out : OutFrame :=
  {| out_year := []; Portugal_gdp_pc := []; Media_16_gdp_pc := [];
     Portugal_pct_da_media_16 := [] |}.

(** Portugal in 1949 and the United Kingdom in 1950. *)
Definition sparse_rows : list RawRow :=
  [obs 1949 "Portugal" "PRT" 70; obs 1950 "United Kingdom" "GBR" 100].

(** Two wide tables with the same years that agree on the columns of the
    basket: on which of them exist, and on their cells. *)
Definition agree_on_basket (w1 w2 : DataFrame) : Prop :=
  (forall c, In c DEVELOPED_16 -> has_column w1 c = has_column w2 c) /\
  Forall2 (fun r1 r2 =>
             fst r1 = fst r2 /\
             forall c, In c DEVELOPED_16 -> snd r1 c = snd r2 c)
    (rows w1) (rows w2).

(** The scenario of 1950 with two economies outside the basket. *)
Definition scenario_with_others : list RawRow :=
  obs 1950 "Brazil" "BRA" 40 :: scenario_1950
  ++ [obs 1950 "Switzerland" "CHE" 200].

(** A row that carries both a code and a value. *)
Definition observed (r : RawRow) : bool :=
  negb (is_None (code r)) && negb (is_None (gdp_per_capita r)).

(** The row with its entity name rewritten. *)
Definition rename_entity (f : string -> string) (r : RawRow) : RawRow :=
  {| year := year r; entity := f (entity r); code := code r;
     gdp_per_capita := gdp_per_capita r |}.

(** The rows of a table that share a year and a code carry the same
    value. *)
Definition consistent (df : list RawRow) : Prop :=
  forall r r', In r df -> In r' df ->
    year r = year r' -> code r = code r' -> code r <> None ->
    gdp_per_capita r = gdp_per_capita r'.

(** One observation, an aggregate without a code and a row without a
    value. *)
Definition ragged_rows : list RawRow :=
  [mkRow 1950 "Western Europe" None (Some (Zq 95));
   obs 1950 "Portugal" "PRT" 80;
   mkRow 1951 "Portugal" (Some "PRT") None].

(** No network. *)
Definition world_offline : World :=
  {| download_csv := fun _ => Raise (HTTPError "no route to host");
     to_csv := fun _ _ => Ok tt;
     plot_ratio := fun _ _ => Ok tt;
     duplicate_labels := ([], Raise (ValueError ArraysLength)) |}.

(** A good download, and nothing that fails. *)
Definition world_fine : World :=
  {| download_csv := fun _ => Ok scenario_table;
     to_csv := fun _ _ => Ok tt;
     plot_ratio := fun _ _ => Ok tt;
     duplicate_labels := ([], Raise (ValueError ArraysLength)) |}.

(** A good download, and a CSV path that cannot be written. *)
Definition world_csv_fails : World :=
  {| download_csv := fun _ => Ok scenario_table;
     to_csv := fun _ _ => Raise (OSError "read-only file system");
     plot_ratio := fun _ _ => Ok tt;
     duplicate_labels := ([], Raise (ValueError ArraysLength)) |}.

(** A good download, and a user who interrupts the plot. *)
Definition world_interrupted : World :=
  {| download_csv := fun _ => Ok scenario_table;
     to_csv := fun _ _ => Ok tt;
     plot_ratio := fun _ _ => Raise KeyboardInterrupt;
     duplicate_labels := ([], Raise (ValueError ArraysLength)) |}.

(** A header in which the only column with the year in its name is the
    column of the value. *)
Definition year_in_value_table : RawFrame :=
  {| raw_columns := ["Entity"; "Code"; "GDP per capita by year"];
     raw_rows := fun _ _ _ => [] |}.

Definition world_year_in_value : World :=
  {| download_csv := fun _ => Ok year_in_value_table;
     to_csv := fun _ _ => Ok tt;
     plot_ratio := fun _ _ => Ok tt;
     duplicate_labels := ([], Raise (ValueError ArraysLength)) |}.

(** [x <= y] on float64: NaN compares false, the infinities are the
    least and the greatest value. *)
Definition float_le (x y : float64) : Prop :=
  match x, y with
  | NaN, _ => False
  | _, NaN => False
  | Inf true, _ => True
  | _, Inf false => True
  | Fin a, Fin b => (a <= b)%Qc
  | Inf false, _ => False
  | _, Inf true => False
  end.

(** Three years with a value of 10 for 11, 12 and 16 economies of the
    basket, as a wide table. *)
Definition coverage_wide : DataFrame := prepare_wide coverage_rows 1900 1902.

(** What [main] prints before it computes: the start, the columns of the
    table and the columns it uses. *)
Definition preamble (df : RawFrame)
  (cols : option string * option string * option string * option string)
  : list event :=
  [Stdout Downloading; Stdout (AvailableColumns (raw_columns df));
   Stdout (UsingColumns cols)].

(** The report of the basket codes without data, when there is one. *)
Definition missing_report (warn : list string) : list event :=
  match warn with
  | [] => []
  | _ => [Stderr (MissingData warn)]
  end.

(** * Properties *)

(** ** Strings *)

Lemma prefix_iff (p s : string) :
  String.prefix p s = true <-> exists t, s = (p ++ t)%string.
Proof.
  revert s; induction p as [|a p IH]; intros s; simpl.
  - destruct s; split; eauto.
  - destruct s as [|b s]; simpl.
    + split; [discriminate | intros [t H]; discriminate].
    + destruct (ascii_dec a b) as [->|Hab].
      * rewrite IH. split; intros [t H]; exists t.
        -- now rewrite H.
        -- now injection H.
      * split; [discriminate | intros [t H]; injection H; intros; congruence].
Qed.

Lemma contains_iff (kw s : string) :
  contains kw s = true <-> Substring kw s.
Proof.
  unfold Substring. induction s as [|x t IH].
  - cbn [contains]. rewrite orb_false_r, prefix_iff. split.
    + intros [u H]. exists "", u. exact H.
    + intros (a & b & H). destruct a; simpl in H.
      * now exists b.
      * discriminate.
  - cbn [contains]. rewrite orb_true_iff, prefix_iff, IH. split.
    + intros [[u H] | (a & b & H)].
      * exists "", u. exact H.
      * exists (String x a), b. simpl. now rewrite H.
    + intros (a & b & H). destruct a as [|y a]; simpl in H.
      * left. now exists b.
      * right. exists a, b. now injection H.
Qed.

(** ** Column detection *)

Lemma matchesb_iff (f : field) (c : string) :
  matchesb f c = true <-> Matches f c.
Proof.
  unfold Matches.
  destruct f; simpl; unfold is_year, is_country, is_code, is_value;
    rewrite ?orb_true_iff, !contains_iff; split.
  all: try (intros H; eexists; split; [left; reflexivity | exact H]).
  all: try (intros (kw & [<- | []] & H); exact H).
  - intros [H | H]; eexists; (split; [|exact H]); simpl; auto.
  - intros (kw & [<- | [<- | []]] & H); auto.
Qed.

Lemma matchesb_nonempty (f : field) (c : string) :
  matchesb f c = true -> String.eqb c "" = false.
Proof.
  intros H. apply String.eqb_neq. intros ->. now destruct f.
Qed.

Lemma find_first {A} (p : A -> bool) (l : list A) (c : A) :
  find p l = Some c ->
  exists pre post,
    l = pre ++ c :: post /\ p c = true /\
    forall x, In x pre -> p x = false.
Proof.
  induction l as [|a l IH]; simpl; [discriminate|].
  destruct (p a) eqn:Ha.
  - intros [= ->]. exists [], l. repeat split; auto. intros x [].
  - intros H. destruct (IH H) as (pre & post & -> & Hc & Hpre).
    exists (a :: pre), post. repeat split; auto.
    intros x [<- | Hx]; auto.
Qed.

Lemma next_selected (f : field) (cols : list string) :
  match next (matchesb f) cols with
  | Some c => FirstMatch f cols c /\ truthy (Some c) = true
  | None => Unresolved f cols
  end.
Proof.
  unfold next. destruct (find (matchesb f) cols) as [c|] eqn:H.
  - destruct (find_first _ _ _ H) as (pre & post & E & Hc & Hpre). split.
    + exists pre, post. split; [exact E|]. split.
      * now apply matchesb_iff.
      * intros x Hx Hm. apply matchesb_iff in Hm.
        rewrite (Hpre x Hx) in Hm. discriminate.
    + simpl. now rewrite (matchesb_nonempty f c Hc).
  - intros c Hc Hm. apply matchesb_iff in Hm.
    rewrite (find_none _ _ H c Hc) in Hm. discriminate.
Qed.

Lemma FirstMatch_resolved (f : field) (cols : list string) (c : string) :
  FirstMatch f cols c -> ~ Unresolved f cols.
Proof.
  intros (pre & post & -> & Hc & _) Hu.
  apply (Hu c); [apply in_elt | exact Hc].
Qed.

(** C4. For every list of column names, [detect_columns] binds each of
    the four logical fields to the first column, in column order, whose
    lowercased name contains a keyword of the field ("year"; "entity" or
    "country"; "code"; "gdp"); it raises an error exactly when some field
    has no matching column, and the error lists exactly the unresolved
    fields, in the fixed order of the fields, and all the available
    column names. *)
Theorem detect_columns_first_match (cols : list string) :
  match detect_columns cols with
  | Ok (y, c, k, v) =>
      Selected FYear cols y /\ Selected FCountry cols c /\
      Selected FCode cols k /\ Selected FValue cols v /\
      forall f, ~ Unresolved f cols
  | Raise e =>
      (exists f, Unresolved f cols) /\
      exists keep : field -> bool,
        (forall f, keep f = true <-> Unresolved f cols) /\
        e = ValueError
              (CouldNotDetect (map field_name (filter keep all_fields)) cols)
  end.
Proof.
  pose proof (next_selected FYear cols) as Hy.
  pose proof (next_selected FCountry cols) as Hc.
  pose proof (next_selected FCode cols) as Hk.
  pose proof (next_selected FValue cols) as Hv.
  assert (Hkeep : forall f,
             is_None (next (matchesb f) cols) = true <-> Unresolved f cols).
  { intros f. pose proof (next_selected f cols) as Hf.
    destruct (next (matchesb f) cols) as [x|]; simpl.
    - split; [discriminate|]. intros Hu.
      destruct Hf as [Hf _]. now apply FirstMatch_resolved in Hf.
    - tauto. }
  unfold detect_columns.
  change (next is_year cols) with (next (matchesb FYear) cols).
  change (next is_country cols) with (next (matchesb FCountry) cols).
  change (next is_code cols) with (next (matchesb FCode) cols).
  change (next is_value cols) with (next (matchesb FValue) cols).
  destruct (next (matchesb FYear) cols) as [y|] eqn:Ey;
    destruct (next (matchesb FCountry) cols) as [c|] eqn:Ec;
    destruct (next (matchesb FCode) cols) as [k|] eqn:Ek;
    destruct (next (matchesb FValue) cols) as [v|] eqn:Ev;
    unfold all, forallb;
    repeat match goal with
      | H : _ /\ truthy _ = true |- _ =>
          let F := fresh "F" in let T := fresh "T" in
          destruct H as [F T]; rewrite T
      end;
    cbn [andb negb].
  1: { repeat split; try (eexists; split; [reflexivity | assumption]).
       intros [] Hu;
         match goal with
         | H : FirstMatch ?f _ _, U : Unresolved ?f _ |- _ =>
             exact (FirstMatch_resolved _ _ _ H U)
         end. }
  all: split;
    [ first [ now exists FYear | now exists FCountry
            | now exists FCode | now exists FValue ]
    | exists (fun f => is_None (next (matchesb f) cols));
      split; [exact Hkeep|];
      cbn [all_fields filter]; rewrite Ey, Ec, Ek, Ev; reflexivity ].
Qed.

(** ** Year filter *)

Lemma year_filter_In (df : list RawRow) (s e : Z) (r : RawRow) :
  In r (year_filter s e df) <-> In r df /\ s <= year r <= e.
Proof.
  unfold year_filter. rewrite filter_In, andb_true_iff.
  rewrite Z.geb_le, Z.leb_le. tauto.
Qed.

(** C5. For every raw table and bounds [start_year <= end_year], the
    year filter retains a row if and only if
    [start_year <= year <= end_year]: rows whose year equals either bound
    are retained, rows one year outside either bound are excluded. *)
Theorem year_filter_inclusive (df : list RawRow) (start_year end_year : Z)
  (Hbounds : start_year <= end_year) :
  (forall r, In r (year_filter start_year end_year df) <->
             In r df /\ start_year <= year r <= end_year) /\
  (forall r, In r df -> year r = start_year \/ year r = end_year ->
             In r (year_filter start_year end_year df)) /\
  (forall r, year r = start_year - 1 \/ year r = end_year + 1 ->
             ~ In r (year_filter start_year end_year df)).
Proof.
  split; [|split].
  - intros r. apply year_filter_In.
  - intros r Hr Hy. apply year_filter_In. split; [exact Hr | lia].
  - intros r Hy Hr. apply year_filter_In in Hr. lia.
Qed.

Lemma year_filter_inclusive_witness :
  1870 <= 2022 /\
  In (obs 1870 "Portugal" "PRT" 2) (year_filter 1870 2022 boundary_rows) /\
  In (obs 2022 "Portugal" "PRT" 3) (year_filter 1870 2022 boundary_rows) /\
  ~ In (obs 1869 "Portugal" "PRT" 1) (year_filter 1870 2022 boundary_rows) /\
  ~ In (obs 2023 "Portugal" "PRT" 4) (year_filter 1870 2022 boundary_rows).
Proof.
  assert (H : 1870 <= 2022) by lia.
  destruct (year_filter_inclusive boundary_rows 1870 2022 H) as (_ & Hin & Hout).
  split; [exact H|]. repeat split.
  - apply Hin; [simpl; auto | now left].
  - apply Hin; [simpl; auto | now right].
  - apply Hout. now left.
  - apply Hout. now right.
Defined.

(** ** Sorting without duplicates *)

Section UsortFacts.
Context {A : Type} (cmp : A -> A -> comparison).
Hypothesis cmp_eq : forall x y, cmp x y = Eq -> x = y.

Lemma In_insert_uniq (x z : A) (l : list A) :
  In z (insert_uniq cmp x l) <-> z = x \/ In z l.
Proof.
  induction l as [|y t IH]; simpl.
  - intuition.
  - destruct (cmp x y) eqn:E; simpl.
    + apply cmp_eq in E. subst y. intuition.
    + intuition.
    + rewrite IH. intuition.
Qed.

Lemma In_usort (z : A) (l : list A) : In z (usort cmp l) <-> In z l.
Proof.
  induction l as [|x t IH]; simpl; [tauto|].
  rewrite In_insert_uniq, IH. intuition.
Qed.
End UsortFacts.

Lemma HdRel_insert_uniq (a x : Z) (l : list Z) :
  a < x -> HdRel Z.lt a l -> HdRel Z.lt a (insert_uniq Z.compare x l).
Proof.
  intros Hax Hl. destruct l as [|y t]; simpl.
  - now constructor.
  - inversion Hl; subst. destruct (x ?= y); now constructor.
Qed.

Lemma Sorted_insert_uniq (x : Z) (l : list Z) :
  Sorted Z.lt l -> Sorted Z.lt (insert_uniq Z.compare x l).
Proof.
  induction 1 as [|y t Ht IH Hy]; simpl.
  - repeat constructor.
  - destruct (x ?= y) eqn:E.
    + now constructor.
    + apply Z.compare_lt_iff in E. repeat constructor; assumption.
    + apply Z.compare_gt_iff in E. constructor; [exact IH|].
      now apply HdRel_insert_uniq.
Qed.

Lemma usort_ascending (l : list Z) : StronglySorted Z.lt (usort Z.compare l).
Proof.
  apply Sorted_StronglySorted; [exact Z.lt_trans|].
  induction l as [|x t IH]; simpl.
  - constructor.
  - now apply Sorted_insert_uniq.
Qed.

(** ** Pivot *)

Lemma in_group_inv (y : Z) (c : string) (r : RawRow) :
  in_group y c r = true <-> year r = y /\ code r = Some c.
Proof.
  unfold in_group. rewrite andb_true_iff, Z.eqb_eq.
  destruct (code r) as [k|].
  - rewrite String.eqb_eq. split; intros [H1 H2]; split; congruence.
  - split; intros [_ H]; discriminate.
Qed.

Lemma first_Some_inv (y : Z) (c : string) (df : list RawRow) (v : Qc) :
  first y c df = Some v ->
  exists r, In r df /\ in_group y c r = true /\ gdp_per_capita r = Some v.
Proof.
  induction df as [|r t IH]; simpl; [discriminate|].
  destruct (in_group y c r) eqn:G.
  - destruct (gdp_per_capita r) as [u|] eqn:V.
    + intros [= ->]. exists r. auto.
    + intros H. destruct (IH H) as (r' & ? & ? & ?). exists r'. auto.
  - intros H. destruct (IH H) as (r' & ? & ? & ?). exists r'. auto.
Qed.

Lemma first_split (y : Z) (c : string) (pre post : list RawRow)
  (r : RawRow) (v : Qc) :
  in_group y c r = true -> gdp_per_capita r = Some v ->
  (forall r', In r' pre -> in_group y c r' = true ->
              gdp_per_capita r' = None) ->
  first y c (pre ++ r :: post) = Some v.
Proof.
  intros G V. induction pre as [|a pre IH]; intros Hpre; simpl.
  - now rewrite G, V.
  - destruct (in_group y c a) eqn:Ga.
    + rewrite (Hpre a (or_introl eq_refl) Ga).
      apply IH. intros r' Hr'. apply Hpre. now right.
    + apply IH. intros r' Hr'. apply Hpre. now right.
Qed.

Lemma first_observed (y : Z) (c : string) (df : list RawRow) (r : RawRow) :
  In r df -> in_group y c r = true -> gdp_per_capita r <> None ->
  first y c df <> None.
Proof.
  induction df as [|a t IH]; simpl; [tauto|].
  intros [-> | Hr] G V.
  - rewrite G. destruct (gdp_per_capita r); [discriminate | tauto].
  - destruct (in_group y c a); [destruct (gdp_per_capita a)|];
      try discriminate; now apply IH.
Qed.

Lemma In_observed_keys (y : Z) (c : string) (df : list RawRow) :
  In (y, c) (observed_keys df) <-> first y c df <> None.
Proof.
  unfold observed_keys. rewrite in_flat_map. split.
  - intros (r & Hr & H). destruct (code r) as [k|]; [|destruct H].
    destruct (first (year r) k df) eqn:F; [|destruct H].
    destruct H as [[= <- <-] | []]. now rewrite F.
  - intros H. destruct (first y c df) as [v|] eqn:F; [|tauto].
    destruct (first_Some_inv _ _ _ _ F) as (r & Hr & G & V).
    apply in_group_inv in G. destruct G as [<- Hc].
    exists r. split; [exact Hr|]. rewrite Hc, F. now left.
Qed.

Lemma pivot_index (df : list RawRow) :
  index (pivot_table df) = usort Z.compare (map fst (observed_keys df)).
Proof.
  unfold index, pivot_table. simpl. rewrite map_map. simpl. apply map_id.
Qed.

Lemma In_pivot_index (y : Z) (df : list RawRow) :
  In y (index (pivot_table df)) <-> exists c, first y c df <> None.
Proof.
  rewrite pivot_index, In_usort by (intros a b; apply Z.compare_eq_iff).
  rewrite in_map_iff. split.
  - intros ([y' c] & <- & H). exists c. now apply In_observed_keys.
  - intros [c H]. exists (y, c). split; [reflexivity|].
    now apply In_observed_keys.
Qed.

Lemma In_pivot_columns (c : string) (df : list RawRow) :
  In c (columns (pivot_table df)) <-> exists y, first y c df <> None.
Proof.
  unfold pivot_table. simpl.
  rewrite In_usort by (intros a b; apply String.compare_eq_iff).
  rewrite in_map_iff. split.
  - intros ([y c'] & <- & H). exists y. now apply In_observed_keys.
  - intros [y H]. exists (y, c). split; [reflexivity|].
    now apply In_observed_keys.
Qed.

Lemma has_column_In (df : DataFrame) (c : string) :
  has_column df c = true <-> In c (columns df).
Proof.
  unfold has_column. rewrite existsb_exists. split.
  - intros (x & Hx & E). apply String.eqb_eq in E. now subst.
  - intros H. exists c. split; [exact H | apply String.eqb_refl].
Qed.

Lemma find_label {B} (g : Z -> B) (y : Z) (l : list Z) :
  In y l ->
  find (fun r => fst r =? y) (map (fun x => (x, g x)) l) = Some (y, g y).
Proof.
  induction l as [|x t IH]; simpl; [tauto|].
  destruct (x =? y) eqn:E.
  - apply Z.eqb_eq in E. now subst.
  - intros [-> | H]; [|now apply IH]. now rewrite Z.eqb_refl in E.
Qed.

(** The cell of the wide table at a year and a code that have an
    observation is the first non-missing value of their rows. *)
Lemma pivot_loc (df : list RawRow) (y : Z) (c : string) :
  first y c df <> None ->
  loc (pivot_table df) y c = Ok (first y c df).
Proof.
  intros H. unfold loc.
  assert (Hc : has_column (pivot_table df) c = true).
  { apply has_column_In, In_pivot_columns. now exists y. }
  rewrite Hc.
  assert (Hy : In y (usort Z.compare (map fst (observed_keys df)))).
  { rewrite <- pivot_index. apply In_pivot_index. now exists c. }
  unfold pivot_table at 1. simpl.
  now rewrite (find_label (fun y c => first y c df) y _ Hy).
Qed.

(** C6, as the code has it.  When several rows share a (year, code)
    pair, the cell of the wide table holds the value of the first of
    them, in row order, whose value is not missing; the rows before it
    with a missing value are skipped and the rows after it are
    discarded. *)
Theorem pivot_first_present_wins (df : list RawRow) (start_year end_year : Z)
  (pre post : list RawRow) (r : RawRow) (c : string) (v : Qc)
  (Hrows : year_filter start_year end_year df = pre ++ r :: post)
  (Hcode : code r = Some c)
  (Hvalue : gdp_per_capita r = Some v)
  (Hpre : forall r', In r' pre -> in_group (year r) c r' = true ->
                     gdp_per_capita r' = None) :
  loc (prepare_wide df start_year end_year) (year r) c = Ok (Some v).
Proof.
  unfold prepare_wide. rewrite Hrows.
  assert (G : in_group (year r) c r = true) by now apply in_group_inv.
  pose proof (first_split (year r) c pre post r v G Hvalue Hpre) as F.
  rewrite pivot_loc; rewrite F; [reflexivity | discriminate].
Qed.

Lemma pivot_first_present_wins_witness :
  year_filter 1950 1950 dup_rows =
    [mkRow 1950 "Portugal" (Some "PRT") None] ++
    obs 1950 "Portugal" "PRT" 80 :: [obs 1950 "Portugal" "PRT" 90] /\
  loc (prepare_wide dup_rows 1950 1950) 1950 "PRT" = Ok (Some (Zq 80)).
Proof.
  split; [reflexivity|].
  apply (pivot_first_present_wins dup_rows 1950 1950
           [mkRow 1950 "Portugal" (Some "PRT") None]
           [obs 1950 "Portugal" "PRT" 90]
           (obs 1950 "Portugal" "PRT" 80) "PRT" (Zq 80)).
  - reflexivity.
  - reflexivity.
  - reflexivity.
  - intros r' [<- | []] _. reflexivity.
Defined.

(** C6, as stated, fails: two rows for (1950, PRT), the first with a
    missing value and the second with 80.  The first-encountered row
    carries no value, and the cell holds 80. *)
Lemma pivot_first_row_counterexample :
  exists r,
    find (in_group 1950 "PRT") (year_filter 1950 1950 dup_missing_first)
      = Some r /\
    loc (prepare_wide dup_missing_first 1950 1950) 1950 "PRT"
      <> Ok (gdp_per_capita r).
Proof.
  exists (mkRow 1950 "Portugal" (Some "PRT") None). split; [reflexivity|].
  vm_compute. discriminate.
Qed.

(** ** The aggregator *)

Lemma combine_map_r {A B} (g : A -> B) (l : list A) :
  combine l (map g l) = map (fun x => (x, g x)) l.
Proof.
  induction l as [|x t IH]; simpl; [reflexivity | now rewrite IH].
Qed.

Lemma combine_map_map {A B C} (f : A -> B) (g : A -> C) (l : list A) :
  combine (map f l) (map g l) = map (fun x => (f x, g x)) l.
Proof.
  induction l as [|x t IH]; simpl; [reflexivity | now rewrite IH].
Qed.

Lemma getitems_present (df : DataFrame) (names : list string) :
  (forall c, In c names -> has_column df c = true) ->
  getitems df names = Ok {| columns := names; rows := rows df |}.
Proof.
  intros H. unfold getitems.
  destruct (find (fun c => negb (has_column df c)) names) as [c|] eqn:F;
    [|reflexivity].
  apply find_some in F. destruct F as [Hc Hn].
  rewrite (H c Hc) in Hn. discriminate.
Qed.

Lemma Qccompare_Zq (a b : Z) : (Zq a ?= Zq b)%Qc = (a ?= b).
Proof.
  unfold Qccompare, Zq, Q2Qc. cbn [this].
  rewrite <- Qred_compare. unfold Qcompare, inject_Z. cbn [Qnum Qden].
  now rewrite !Z.mul_1_r.
Qed.

Lemma cell_ltb_Zq (n k : Z) : cell_ltb (Some (Zq n)) k = (n <? k).
Proof.
  unfold cell_ltb, Z.ltb. now rewrite Qccompare_Zq.
Qed.

Lemma present_basket (basket : list string) (wide : DataFrame)
  (r : Z * (string -> cell)) :
  present (map (snd r) (filter (has_column wide) basket))
  = basket_values basket wide r.
Proof.
  unfold basket_values. induction basket as [|c t IH]; simpl; [reflexivity|].
  destruct (has_column wide c); simpl; [|exact IH].
  destruct (snd r c); simpl; now rewrite IH.
Qed.

Lemma masked_nanmean (l : list cell) :
  (if Z.of_nat (List.length (present l)) <? 12 then None else nanmean l)
  = masked_mean (present l).
Proof.
  unfold masked_mean, nanmean.
  destruct (Z.ltb_spec (Z.of_nat (List.length (present l))) 12) as [H|H];
    destruct (Nat.ltb_spec (List.length (present l)) 12) as [H'|H'];
    try lia; try reflexivity.
  destruct (present l); [simpl in H'; lia | reflexivity].
Qed.

Lemma DataFrame_of_dict_maps {A} (f1 : A -> Z) (f2 f3 : A -> cell)
  (f4 : A -> float64) (l : list A) :
  DataFrame_of_dict (map f1 l) (map f2 l) (map f3 l) (map f4 l)
  = Ok {| out_year := map f1 l; Portugal_gdp_pc := map f2 l;
          Media_16_gdp_pc := map f3 l;
          Portugal_pct_da_media_16 := map f4 l |}.
Proof.
  unfold DataFrame_of_dict. now rewrite !length_map, Nat.eqb_refl.
Qed.

Lemma has_column_app (cs : list string) (rs : list (Z * (string -> cell)))
  (name c : string) :
  has_column {| columns := cs ++ [name]; rows := rs |} c
  = has_column {| columns := cs; rows := rs |} c || String.eqb c name.
Proof.
  unfold has_column. cbn [columns]. rewrite existsb_app. simpl.
  now rewrite orb_false_r.
Qed.

Lemma compute_closed_form (wide : DataFrame) (basket : list string)
  (portugal_code : string) :
  ~ In "count_non_na" basket ->
  compute_portugal_vs_mean wide basket portugal_code =
  Ok (filter (fun c => negb (has_column wide c)) (basket ++ [portugal_code]),
      {| out_year := index wide;
         Portugal_gdp_pc := map (portugal_value wide portugal_code) (rows wide);
         Media_16_gdp_pc :=
           map (fun r => masked_mean (basket_values basket wide r)) (rows wide);
         Portugal_pct_da_media_16 :=
           map (fun r => pct (portugal_value wide portugal_code r)
                           (masked_mean (basket_values basket wide r)))
             (rows wide) |}).
Proof.
  intros Hcn. unfold compute_portugal_vs_mean.
  set (cols0 := filter (has_column wide) basket).
  assert (Hcols0 : forall c, In c cols0 <-> In c basket /\ has_column wide c = true).
  { intros c. apply filter_In. }
  assert (Hne : forall c, In c basket -> String.eqb c "count_non_na" = false).
  { intros c Hc. apply String.eqb_neq. intros ->. tauto. }
  rewrite (getitems_present wide cols0) by (intros c Hc; now apply Hcols0).
  cbn [bind].
  set (avg0 := {| columns := cols0; rows := rows wide |}).
  assert (Hno : has_column avg0 "count_non_na" = false).
  { destruct (has_column avg0 "count_non_na") eqn:E; [|reflexivity].
    apply has_column_In in E. simpl in E. apply Hcols0 in E. tauto. }
  unfold setitem. rewrite Hno.
  unfold count_axis1, s_map. rewrite map_map. cbn [fst snd].
  rewrite combine_map_r, map_map. cbn [fst snd rows columns avg0].
  unfold row_values. cbn [columns avg0].
  set (rows1 := map _ (rows wide)).
  assert (Hsel : filter (has_column {| columns := cols0 ++ ["count_non_na"];
                                       rows := rows1 |}) basket = cols0).
  { apply filter_ext_in. intros c Hc. rewrite has_column_app, (Hne c Hc), orb_false_r.
    destruct (has_column wide c) eqn:E.
    - apply has_column_In. cbn [columns]. now apply Hcols0.
    - destruct (has_column {| columns := cols0; rows := rows1 |} c) eqn:E'; [|reflexivity].
      apply has_column_In in E'. cbn [columns] in E'. apply Hcols0 in E'.
      destruct E' as [_ E']. congruence. }
  rewrite Hsel.
  rewrite getitems_present.
  2:{ intros c Hc. rewrite has_column_app. apply orb_true_iff. left.
      apply has_column_In. exact Hc. }
  cbn [bind rows]. unfold getitem.
  rewrite has_column_app, String.eqb_refl, orb_true_r. cbn [bind rows].
  unfold mean_axis1, mask_setitem, s_binop, row_values. cbn [columns rows].
  subst rows1. rewrite !map_map. cbn [fst snd]. rewrite String.eqb_refl.
  rewrite combine_map_map, map_map. cbn [fst snd].
  assert (Hrow : forall x : Z * (string -> cell),
    (if cell_ltb (Some (Zq (Z.of_nat (List.length (present (map (snd x) cols0)))))) 12
     then None
     else nanmean (map (fun c => if String.eqb c "count_non_na"
                                 then Some (Zq (Z.of_nat (List.length
                                        (present (map (snd x) cols0)))))
                                 else snd x c) cols0))
    = masked_mean (basket_values basket wide x)).
  { intros x. rewrite cell_ltb_Zq.
    set (f := fun c : string => if String.eqb c "count_non_na" then _ else _).
    rewrite (map_ext_in f (snd x)).
    2:{ intros c Hc. apply Hcols0 in Hc. unfold f.
        now rewrite (Hne c (proj1 Hc)). }
    rewrite masked_nanmean. unfold cols0. now rewrite present_basket. }
  unfold portugal_value, pct, empty_series, index, s_index, s_values.
  destruct (has_column wide portugal_code); cbn [bind];
    rewrite ?map_map; cbn [fst snd];
    rewrite ?combine_map_map, ?map_map; cbn [fst snd];
    rewrite DataFrame_of_dict_maps; cbn [bind];
    do 3 f_equal; apply map_ext; intros x; cbn [fst snd];
    rewrite ?Hrow; reflexivity.
Qed.

Lemma basket_has_no_count_column : ~ In "count_non_na" DEVELOPED_16.
Proof.
  unfold DEVELOPED_16. simpl. intuition discriminate.
Qed.

Lemma zip4_map {A} (f1 : A -> Z) (f2 f3 : A -> cell) (f4 : A -> float64)
  (l : list A) :
  zip4 (map f1 l) (map f2 l) (map f3 l) (map f4 l)
  = map (fun x => (f1 x, f2 x, f3 x, f4 x)) l.
Proof.
  induction l as [|x t IH]; simpl; [reflexivity | now rewrite IH].
Qed.

(** The aggregator on the basket of the script: it returns, and its
    table has one record per row of the wide table. *)
Lemma compute_records (wide : DataFrame) :
  exists warn out,
    compute_portugal_vs_mean wide DEVELOPED_16 PORTUGAL = Ok (warn, out) /\
    out_year out = index wide /\
    Portugal_gdp_pc out = map (portugal_value wide PORTUGAL) (rows wide) /\
    Media_16_gdp_pc out =
      map (fun r => masked_mean (basket_values DEVELOPED_16 wide r))
        (rows wide) /\
    Portugal_pct_da_media_16 out =
      map (fun r => pct (portugal_value wide PORTUGAL r)
                      (masked_mean (basket_values DEVELOPED_16 wide r)))
        (rows wide) /\
    records out = map (result_record DEVELOPED_16 PORTUGAL wide) (rows wide).
Proof.
  eexists. eexists. split.
  - apply compute_closed_form, basket_has_no_count_column.
  - cbn [out_year Portugal_gdp_pc Media_16_gdp_pc Portugal_pct_da_media_16].
    repeat split. unfold records, index.
    cbn [out_year Portugal_gdp_pc Media_16_gdp_pc Portugal_pct_da_media_16].
    now rewrite zip4_map.
Qed.

Lemma basket_values_length (basket : list string) (wide : DataFrame)
  (r : Z * (string -> cell)) :
  List.length (basket_values basket wide r) = coverage basket wide r.
Proof.
  unfold basket_values, coverage.
  induction basket as [|c t IH]; simpl; [reflexivity|].
  destruct (has_column wide c); simpl; [|exact IH].
  destruct (snd r c); simpl; now rewrite IH.
Qed.

Lemma distinct_NoDup (l : list string) : distinct l = true -> NoDup l.
Proof.
  induction l as [|x t IH]; simpl; [constructor|].
  intros H. apply andb_true_iff in H. destruct H as [Hx Ht].
  constructor; [|now apply IH].
  intros Hin. apply negb_true_iff in Hx.
  assert (E : existsb (String.eqb x) t = true).
  { apply existsb_exists. exists x. split; [exact Hin|].
    apply String.eqb_refl. }
  congruence.
Qed.

Lemma In_basket_values (basket : list string) (wide : DataFrame)
  (r : Z * (string -> cell)) (v : Qc) :
  In v (basket_values basket wide r) <->
  exists c, In c basket /\ has_column wide c = true /\ snd r c = Some v.
Proof.
  unfold basket_values. rewrite in_flat_map. split.
  - intros (c & Hc & H). exists c. destruct (has_column wide c); [|destruct H].
    destruct (snd r c) as [u|]; [|destruct H].
    destruct H as [-> | []]. auto.
  - intros (c & Hc & Hw & Hv). exists c. rewrite Hw, Hv. simpl. auto.
Qed.

Lemma prepare_wide_index_ascending (df : list RawRow) (s e : Z) :
  StronglySorted Z.lt (index (prepare_wide df s e)).
Proof.
  unfold prepare_wide. rewrite pivot_index. apply usort_ascending.
Qed.

(** The years of the wide table: those of the rows in range that carry
    a code and a value. *)
Lemma prepare_wide_index_spec (df : list RawRow) (s e y : Z) :
  In y (index (prepare_wide df s e)) <->
  exists r, In r df /\ year r = y /\ s <= y <= e /\
            code r <> None /\ gdp_per_capita r <> None.
Proof.
  unfold prepare_wide. rewrite In_pivot_index. split.
  - intros [c Hc].
    destruct (first y c (year_filter s e df)) as [v|] eqn:F; [|tauto].
    destruct (first_Some_inv _ _ _ _ F) as (r & Hr & G & V).
    apply in_group_inv in G. destruct G as [<- Hk].
    apply year_filter_In in Hr. exists r.
    rewrite Hk, V. repeat split; try tauto; discriminate.
  - intros (r & Hr & <- & Hy & Hk & Hv).
    destruct (code r) as [c|] eqn:Ek; [|tauto].
    exists c. apply (first_observed _ _ _ r).
    + now apply year_filter_In.
    + now apply in_group_inv.
    + exact Hv.
Qed.

Lemma prepare_wide_index_in_range (df : list RawRow) (s e : Z) :
  Forall (fun y => s <= y <= e) (index (prepare_wide df s e)).
Proof.
  apply Forall_forall. intros y Hy. unfold prepare_wide in Hy.
  apply In_pivot_index in Hy. destruct Hy as [c Hc].
  destruct (first y c (year_filter s e df)) as [v|] eqn:F; [|tauto].
  destruct (first_Some_inv _ _ _ _ F) as (r & Hr & G & _).
  apply in_group_inv in G. destruct G as [<- _].
  apply year_filter_In in Hr. tauto.
Qed.

(** C9. The table that the aggregator returns has the four columns
    year, Portugal's value, the masked mean and the ratio, with one row
    per year of the wide table, in the order of its index; on the wide
    table that [prepare_wide] builds the years are those of the filtered
    range, in ascending order. *)
Theorem result_table_shape :
  (forall wide, exists warn out,
      compute_portugal_vs_mean wide DEVELOPED_16 PORTUGAL = Ok (warn, out) /\
      out_year out = index wide /\
      List.length (Portugal_gdp_pc out) = List.length (index wide) /\
      List.length (Media_16_gdp_pc out) = List.length (index wide) /\
      List.length (Portugal_pct_da_media_16 out) = List.length (index wide) /\
      map (fun rec => fst (fst (fst rec))) (records out) = index wide) /\
  (forall df start_year end_year, exists warn out,
      pipeline df start_year end_year = Ok (warn, out) /\
      StronglySorted Z.lt (out_year out) /\
      Forall (fun y => start_year <= y <= end_year) (out_year out)).
Proof.
  split.
  - intros wide.
    destruct (compute_records wide) as (warn & out & E & Hy & Hp & Hm & Hr & Hrec).
    exists warn, out. split; [exact E|]. split; [exact Hy|].
    rewrite Hp, Hm, Hr, Hrec. unfold index. rewrite !length_map, map_map.
    repeat split.
  - intros df s e. unfold pipeline.
    destruct (compute_records (prepare_wide df s e))
      as (warn & out & E & Hy & _).
    exists warn, out. split; [exact E|]. rewrite Hy. split.
    + apply prepare_wide_index_ascending.
    + apply prepare_wide_index_in_range.
Qed.

(** C7. When Portugal's code is not a column of the wide table the
    aggregator does not fail: Portugal's series is missing for every
    year, and so is the ratio. *)
Theorem portugal_absent_all_missing (wide : DataFrame)
  (Habsent : has_column wide PORTUGAL = false) :
  exists warn out,
    compute_portugal_vs_mean wide DEVELOPED_16 PORTUGAL = Ok (warn, out) /\
    out_year out = index wide /\
    Portugal_gdp_pc out = map (fun _ => None) (index wide) /\
    Portugal_pct_da_media_16 out = map (fun _ => NaN) (index wide).
Proof.
  destruct (compute_records wide) as (warn & out & E & Hy & Hp & _ & Hr & _).
  exists warn, out. split; [exact E|]. split; [exact Hy|].
  rewrite Hp, Hr. unfold index. rewrite !map_map.
  split; apply map_ext; intros r; unfold pct, portugal_value;
    now rewrite Habsent.
Qed.

Lemma portugal_absent_all_missing_witness :
  has_column wide_without_portugal PORTUGAL = false /\
  exists warn out,
    compute_portugal_vs_mean wide_without_portugal DEVELOPED_16 PORTUGAL
      = Ok (warn, out) /\
    out_year out = [1950] /\
    Portugal_gdp_pc out = [None] /\
    Portugal_pct_da_media_16 out = [NaN].
Proof.
  split; [reflexivity|].
  exact (portugal_absent_all_missing wide_without_portugal eq_refl).
Defined.

(** ** Portugal inside its own basket *)

Lemma sum_app (l1 l2 : list Qc) : sum (l1 ++ l2) = (sum l1 + sum l2)%Qc.
Proof.
  unfold sum. induction l1 as [|x t IH]; simpl.
  - change (Zq 0) with 0%Qc. ring.
  - rewrite IH. ring.
Qed.





(** ** The ratio *)

Ltac qc_eq :=
  lazymatch goal with
  | |- @eq Qc _ _ => apply Qc_is_canon; vm_compute; reflexivity
  | |- _ => first [ reflexivity | f_equal; qc_eq ]
  end.

Lemma is_zero_iff (q : Qc) : is_zero q = true <-> q = Zq 0.
Proof.
  unfold is_zero, Qc_eq_bool. destruct (Qc_eq_dec q (Zq 0)); split;
    try discriminate; tauto.
Qed.

Lemma hundred_not_zero : is_zero (Zq 100) = false.
Proof. reflexivity. Qed.

Lemma pct_value (a b : Qc) :
  b <> Zq 0 -> pct (Some a) (Some b) = Fin (a / b * Zq 100)%Qc.
Proof.
  intros Hb. unfold pct, truediv, of_cell.
  destruct (is_zero b) eqn:E; [|reflexivity].
  apply is_zero_iff in E. contradiction.
Qed.

Lemma pct_missing_iff (p m : cell) :
  isna (pct p m) = true <->
  p = None \/ m = None \/ (p = Some (Zq 0) /\ m = Some (Zq 0)).
Proof.
  unfold pct, of_cell, truediv.
  destruct p as [a|], m as [b|]; cbn [mul isna]; try tauto.
  destruct (is_zero b) eqn:Eb.
  - apply is_zero_iff in Eb. subst b. destruct (is_zero a) eqn:Ea.
    + apply is_zero_iff in Ea. subst a. cbn [mul isna]. tauto.
    + cbn [mul]. rewrite hundred_not_zero. cbn [isna].
      split; [discriminate|].
      intros [H | [H | [H _]]]; try discriminate.
      injection H as ->. discriminate Ea.
  - cbn [mul isna]. split; [discriminate|].
    intros [H | [H | [_ H]]]; try discriminate.
    injection H as ->. discriminate Eb.
Qed.

Lemma pct_50_100 : pct (Some (Zq 50)) (Some (Zq 100)) = Fin (Zq 50).
Proof.
  rewrite pct_value by (intros H; apply (f_equal this) in H; discriminate H).
  qc_eq.
Qed.

(** C2, as the code has it.  For every wide table with distinct column
    labels and every year of the result, the ratio is missing if and
    only if Portugal's value is missing, or the masked mean is missing,
    or both are zero (the division 0/0 of float64 gives NaN and nothing
    guards it); and for Portugal at 50 and a mean of 100 the ratio is
    50. *)
Theorem ratio_missing_iff (wide : DataFrame)
  (Hlabels : NoDup (columns wide)) :
  exists warn out,
    compute_portugal_vs_mean wide DEVELOPED_16 PORTUGAL = Ok (warn, out) /\
    List.length (records out) = List.length (index wide) /\
    Forall (fun rec =>
              let '(_, p, m, r) := rec in
              (isna r = true <->
               p = None \/ m = None \/
               (p = Some (Zq 0) /\ m = Some (Zq 0))) /\
              (p = Some (Zq 50) -> m = Some (Zq 100) -> r = Fin (Zq 50)))
      (records out).
Proof.
  destruct (compute_records wide) as (warn & out & E & _ & _ & _ & _ & Hrec).
  exists warn, out. split; [exact E|]. rewrite Hrec. unfold index.
  rewrite !length_map. split; [reflexivity|].
  apply Forall_forall. intros rec Hin. apply in_map_iff in Hin.
  destruct Hin as (r & <- & _). unfold result_record. cbv zeta.
  split; [apply pct_missing_iff|].
  intros -> ->. exact pct_50_100.
Qed.

Lemma ratio_missing_iff_witness :
  NoDup (columns coverage_wide) /\
  exists warn out,
    compute_portugal_vs_mean coverage_wide DEVELOPED_16 PORTUGAL
      = Ok (warn, out) /\
    List.length (records out) = 3%nat.
Proof.
  assert (Hlabels : NoDup (columns coverage_wide))
    by (apply distinct_NoDup; reflexivity).
  split; [exact Hlabels|].
  destruct (ratio_missing_iff coverage_wide Hlabels)
    as (warn & out & E & Hlen & _).
  exists warn, out. split; [exact E|]. rewrite Hlen. reflexivity.
Defined.

(** C2, as stated, fails: in a year in which the 16 economies all have
    the value 0, Portugal's value and the mean are both present (both 0)
    and the ratio 0/0 is missing. *)
Lemma ratio_defined_iff_counterexample :
  exists warn out,
    pipeline zero_rows 1950 1950 = Ok (warn, out) /\
    records out = [(1950, Some (Zq 0), Some (Zq 0), NaN)] /\
    ~ Forall (fun rec =>
                let '(_, p, m, r) := rec in
                isna r = false <-> p <> None /\ m <> None)
        (records out).
Proof.
  unfold pipeline.
  destruct (compute_records (prepare_wide zero_rows 1950 1950))
    as (warn & out & E & _ & _ & _ & _ & Hrec).
  assert (R : records out = [(1950, Some (Zq 0), Some (Zq 0), NaN)]).
  { rewrite Hrec. vm_compute. qc_eq. }
  exists warn, out. split; [exact E|]. split; [exact R|].
  rewrite R. intros H. apply Forall_inv in H. cbv beta iota in H.
  assert (D : isna NaN = false) by (apply H; split; discriminate).
  discriminate D.
Qed.

(** The threshold on three years: 11 economies with a value give a
    missing mean, 12 and 16 give a mean. *)
Example coverage_threshold_example :
  exists warn out,
    pipeline coverage_rows 1900 1902 = Ok (warn, out) /\
    records out =
      [(1900, Some (Zq 10), None, NaN);
       (1901, Some (Zq 10), Some (Zq 10), Fin (Zq 100));
       (1902, Some (Zq 10), Some (Zq 10), Fin (Zq 100))].
Proof.
  unfold pipeline.
  destruct (compute_records (prepare_wide coverage_rows 1900 1902))
    as (warn & out & E & _ & _ & _ & _ & Hrec).
  exists warn, out. split; [exact E|]. rewrite Hrec.
  vm_compute. qc_eq.
Qed.

(** ** The scenario of 1950 *)

(** C3, as the code has it.  On the rows of 1950 (Portugal 80, the 15
    other economies of the basket 100), with both bounds at 1950, the
    pipeline reports nothing and returns one row: year 1950, Portugal
    80, the mean 1580/16 = 98.75 (Portugal is one of the 16 averaged;
    the sum and the quotient are exact in float64) and a ratio of about
    81.01: the quotient 80/98.75 times 100, between 81.0126582 and
    81.0126583. *)
Theorem scenario_1950_result :
  exists out q,
    pipeline scenario_1950 1950 1950 = Ok ([], out) /\
    out_year out = [1950] /\
    Portugal_gdp_pc out = [Some (Zq 80)] /\
    Media_16_gdp_pc out = [Some (Q2Qc (395 # 4))] /\
    Portugal_pct_da_media_16 out = [Fin q] /\
    (Q2Qc (810126582 # 10000000) < q)%Qc /\
    (q < Q2Qc (810126583 # 10000000))%Qc.
Proof.
  exists scenario_result, (Q2Qc (6400 # 79)).
  split; [vm_compute; qc_eq|].
  repeat split.
Qed.

(** C3, as stated, fails: the pipeline does not return a mean of 100 and
    a ratio of 80 on the scenario. *)
Lemma scenario_1950_counterexample :
  ~ exists warn,
      pipeline scenario_1950 1950 1950 = Ok (warn, scenario_expected).
Proof.
  intros [warn H].
  apply (f_equal (fun x => match x with
                           | Ok (_, o) =>
                               map (option_map this) (Media_16_gdp_pc o)
                           | Raise _ => []
                           end)) in H.
  vm_compute in H. discriminate H.
Qed.

(** ** The program *)

Lemma detect_columns_raises (cols : list string) (e : exn) :
  detect_columns cols = Raise e ->
  exists missing, e = ValueError (CouldNotDetect missing cols).
Proof.
  unfold detect_columns. destruct (negb (all _)); [|discriminate].
  intros [= <-]. eauto.
Qed.

Lemma pipeline_returns (df : list RawRow) (s e : Z) :
  exists warn out, pipeline df s e = Ok (warn, out).
Proof.
  unfold pipeline.
  destruct (compute_records (prepare_wide df s e)) as (warn & out & E & _).
  now exists warn, out.
Qed.

(** C8. When column detection fails the program prints the diagnostic
    of the missing fields on standard error and exits with status 1.
    When plotting raises an exception, which can only be after the table
    was prepared and aggregated and the CSV written, the exception is
    caught and reported on standard error, and the run ends with
    status 0. *)
Theorem main_exit_status (args : Args) (w : World) (df : RawFrame)
  (Hdownload : download_csv w (source_url args) = Ok df) :
  (forall e,
      detect_columns (raw_columns df) = Raise e ->
      run args w =
        ([Stdout Downloading; Stdout (AvailableColumns (raw_columns df));
          Stderr (DetectError e)], 1)) /\
  (forall cols wide warn out e,
      detect_columns (raw_columns df) = Ok cols ->
      prepare_wide_df df cols (start_year args) (end_year args)
        = Ok (Wide wide) ->
      compute_portugal_vs_mean wide DEVELOPED_16 PORTUGAL
        = Ok (warn, out) ->
      to_csv w out (out_csv args) = Ok tt ->
      plot_ratio w out (out_png args) = Raise e ->
      is_Exception e = true ->
      run args w =
        ([Stdout Downloading; Stdout (AvailableColumns (raw_columns df));
          Stdout (UsingColumns cols)]
         ++ match warn with
            | [] => []
            | _ => [Stderr (MissingData warn)]
            end
         ++ [FileWritten (out_csv args); Stdout (CsvSaved (out_csv args));
             Stderr (PlotError e)], 0)).
Proof.
  split.
  - intros e He. destruct (detect_columns_raises _ _ He) as [missing ->].
    unfold run, main. rewrite Hdownload. cbn. rewrite He. reflexivity.
  - intros cols wide warn out e Hcols Hwide Hagg Hcsv Hplot Hexc.
    unfold run, main. rewrite Hdownload. cbn. rewrite Hcols. cbn.
    rewrite Hwide. cbn. rewrite Hagg. cbn.
    destruct warn; cbn; rewrite Hcsv, Hplot, Hexc; reflexivity.
Qed.

Lemma main_exit_status_witness :
  run default_args world_bad_header =
    ([Stdout Downloading; Stdout (AvailableColumns ["Entity"; "Year"]);
      Stderr (DetectError
                (ValueError
                   (CouldNotDetect ["code"; "gdp"] ["Entity"; "Year"])))],
     1) /\
  run default_args world_plot_fails =
    ([Stdout Downloading;
      Stdout (AvailableColumns ["Entity"; "Code"; "Year"; "GDP per capita"]);
      Stdout (UsingColumns (Some "Year", Some "Entity", Some "Code",
                            Some "GDP per capita"));
      FileWritten "portugal_vs_16_developed.csv";
      Stdout (CsvSaved "portugal_vs_16_developed.csv");
      Stderr (PlotError (OSError "cannot write the image"))], 0).
Proof.
  split.
  - exact (proj1 (main_exit_status default_args world_bad_header
                    (mkRaw ["Entity"; "Year"] (fun _ _ _ => [])) eq_refl)
             (ValueError (CouldNotDetect ["code"; "gdp"] ["Entity"; "Year"]))
             eq_refl).
  - pose proof (proj2 (main_exit_status default_args world_plot_fails
                    scenario_table eq_refl)
             (Some "Year", Some "Entity", Some "Code", Some "GDP per capita")
             (prepare_wide scenario_1950 1870 2022) [] scenario_out
             (OSError "cannot write the image")
             eq_refl) as H.
    apply H; reflexivity.
Defined.

(** * Further properties *)

(** ** Column detection *)

Lemma lower_ascii_idempotent (a : ascii) :
  lower_ascii (lower_ascii a) = lower_ascii a.
Proof.
  destruct a as [[] [] [] [] [] [] [] []]; reflexivity.
Qed.

Lemma lower_idempotent (s : string) : lower (lower s) = lower s.
Proof.
  induction s as [|a t IH]; simpl; [reflexivity|].
  now rewrite lower_ascii_idempotent, IH.
Qed.

Lemma lower_empty (s : string) :
  String.eqb (lower s) "" = String.eqb s "".
Proof.
  now destruct s.
Qed.

Lemma matchesb_lower (f : field) (c : string) :
  matchesb f (lower c) = matchesb f c.
Proof.
  destruct f; simpl; unfold is_year, is_country, is_code, is_value;
    now rewrite lower_idempotent.
Qed.

Lemma next_map_lower (f : field) (cols : list string) :
  next (matchesb f) (map lower cols)
  = option_map lower (next (matchesb f) cols).
Proof.
  unfold next. induction cols as [|c t IH]; simpl; [reflexivity|].
  rewrite matchesb_lower. destruct (matchesb f c); [reflexivity | exact IH].
Qed.

(** X1. Column detection does not depend on the case of the ASCII
    letters of the column names: on the names with their capitals [A]-[Z]
    replaced by [a]-[z] (every other character kept) it binds the
    columns it bound before, with their names so replaced, and it fails
    on the same fields. *)
Theorem detect_columns_case_insensitive (cols : list string) :
  detect_columns (map lower cols) = lower_outcome (detect_columns cols).
Proof.
  unfold detect_columns.
  change (next is_year) with (next (matchesb FYear)).
  change (next is_country) with (next (matchesb FCountry)).
  change (next is_code) with (next (matchesb FCode)).
  change (next is_value) with (next (matchesb FValue)).
  rewrite !next_map_lower.
  destruct (next (matchesb FYear) cols) as [y|];
    destruct (next (matchesb FCountry) cols) as [c|];
    destruct (next (matchesb FCode) cols) as [k|];
    destruct (next (matchesb FValue) cols) as [v|];
    cbn [option_map all forallb truthy andb negb];
    rewrite ?lower_empty;
    repeat match goal with
      | |- context [String.eqb ?s ""] => destruct (String.eqb s "")
      end;
    reflexivity.
Qed.

Lemma next_app {A} (p : A -> bool) (l more : list A) (x : A) :
  next p l = Some x -> next p (l ++ more) = Some x.
Proof.
  unfold next. induction l as [|a t IH]; simpl; [discriminate|].
  destruct (p a); [tauto | exact IH].
Qed.

(** X2. A detection that succeeds is not changed by columns added after
    the existing ones: every field stays bound to the same column. *)
Theorem detect_columns_stable_under_append (cols more : list string)
  (r : option string * option string * option string * option string)
  (Hok : detect_columns cols = Ok r) :
  detect_columns (cols ++ more) = Ok r.
Proof.
  unfold detect_columns in *.
  destruct (next is_year cols) as [y|] eqn:Ey;
    destruct (next is_country cols) as [c|] eqn:Ec;
    destruct (next is_code cols) as [k|] eqn:Ek;
    destruct (next is_value cols) as [v|] eqn:Ev;
    cbn [all forallb truthy andb negb] in Hok;
    rewrite ?andb_false_r in Hok; try discriminate Hok.
  rewrite (next_app _ _ more _ Ey), (next_app _ _ more _ Ec),
    (next_app _ _ more _ Ek), (next_app _ _ more _ Ev).
  cbn [all forallb truthy andb negb].
  match type of Hok with
  | (if ?b then _ else _) = _ => destruct b
  end; [discriminate Hok | exact Hok].
Qed.

Lemma detect_columns_stable_under_append_witness :
  detect_columns owid_header
    = Ok (Some "Year", Some "Entity", Some "Code", Some "GDP per capita") /\
  detect_columns (owid_header ++ ["Country code"; "year of revision"])
    = Ok (Some "Year", Some "Entity", Some "Code", Some "GDP per capita").
Proof.
  split; [reflexivity|].
  apply (detect_columns_stable_under_append owid_header
           ["Country code"; "year of revision"]).
  reflexivity.
Defined.

(** ** Year filter and pivot *)

Lemma string_lt_trans (a b c : string) :
  string_lt a b -> string_lt b c -> string_lt a c.
Proof.
  unfold string_lt. revert b c.
  induction a as [|x a IH]; intros [|y b] [|z c]; simpl;
    try discriminate; try reflexivity.
  unfold Ascii.compare.
  destruct (N.compare_spec (N_of_ascii x) (N_of_ascii y)) as [E1|L1|G1];
    destruct (N.compare_spec (N_of_ascii y) (N_of_ascii z)) as [E2|L2|G2];
    destruct (N.compare_spec (N_of_ascii x) (N_of_ascii z)) as [E3|L3|G3];
    try discriminate; try reflexivity; try lia.
  apply IH.
Qed.

Lemma string_lt_irrefl (a : string) : ~ string_lt a a.
Proof.
  unfold string_lt. intros H.
  pose proof (String.compare_antisym a a) as Ha. rewrite H in Ha.
  discriminate Ha.
Qed.

Section UsortSorted.
Context {A : Type} (cmp : A -> A -> comparison).
Hypothesis cmp_trans :
  forall x y z, cmp x y = Lt -> cmp y z = Lt -> cmp x z = Lt.
Hypothesis cmp_gt : forall x y, cmp x y = Gt -> cmp y x = Lt.

Lemma insert_uniq_sorted (x : A) (l : list A) :
  Sorted (fun a b => cmp a b = Lt) l ->
  Sorted (fun a b => cmp a b = Lt) (insert_uniq cmp x l).
Proof.
  induction 1 as [|y t Ht IH Hy]; simpl.
  - repeat constructor.
  - destruct (cmp x y) eqn:E.
    + now constructor.
    + repeat constructor; assumption.
    + constructor; [exact IH|].
      destruct t as [|z t]; simpl.
      * constructor. now apply cmp_gt.
      * inversion Hy; subst.
        destruct (cmp x z); constructor; auto.
Qed.

Lemma usort_sorted (l : list A) :
  StronglySorted (fun a b => cmp a b = Lt) (usort cmp l).
Proof.
  apply Sorted_StronglySorted.
  - intros x y z. apply cmp_trans.
  - induction l as [|x t IH]; simpl; [constructor|].
    now apply insert_uniq_sorted.
Qed.
End UsortSorted.

Section SortedUnique.
Context {A : Type} (R : A -> A -> Prop).
Hypothesis R_irrefl : forall x, ~ R x x.
Hypothesis R_trans : forall x y z, R x y -> R y z -> R x z.

Lemma sorted_NoDup (l : list A) : StronglySorted R l -> NoDup l.
Proof.
  induction 1 as [|a l Hl IH Ha]; constructor; [|exact IH].
  intros Hin. rewrite Forall_forall in Ha. exact (R_irrefl a (Ha a Hin)).
Qed.

(** Two ascending lists with the same elements are equal. *)
Lemma sorted_unique (l l' : list A) :
  StronglySorted R l -> StronglySorted R l' ->
  (forall x, In x l <-> In x l') -> l = l'.
Proof.
  intros Hl. revert l'.
  induction Hl as [|a t Ht IH Ha]; intros l' Hl' Hsame.
  - destruct l' as [|b t']; [reflexivity|].
    destruct (proj2 (Hsame b) (or_introl eq_refl)).
  - destruct Hl' as [|b t' Ht' Hb].
    + destruct (proj1 (Hsame a) (or_introl eq_refl)).
    + rewrite Forall_forall in Ha, Hb.
      assert (E : a = b).
      { destruct (proj1 (Hsame a) (or_introl eq_refl)) as [E | Hin];
          [now symmetry|].
        destruct (proj2 (Hsame b) (or_introl eq_refl)) as [E | Hin'];
          [exact E|].
        destruct (R_irrefl a (R_trans _ _ _ (Ha b Hin') (Hb a Hin))). }
      subst b. f_equal. apply IH; [exact Ht'|].
      intros x. split; intros Hx.
      * destruct (proj1 (Hsame x) (or_intror Hx)) as [E | Hin]; [|exact Hin].
        subst x. destruct (R_irrefl a (Ha a Hx)).
      * destruct (proj2 (Hsame x) (or_intror Hx)) as [E | Hin]; [|exact Hin].
        subst x. destruct (R_irrefl a (Hb a Hx)).
Qed.
End SortedUnique.

Lemma year_filter_compose (s e s' e' : Z) (df : list RawRow) :
  year_filter s e (year_filter s' e' df)
  = year_filter (Z.max s s') (Z.min e e') df.
Proof.
  unfold year_filter. induction df as [|r t IH]; simpl; [reflexivity|].
  destruct ((year r >=? s') && (year r <=? e')) eqn:E1; simpl;
    destruct ((year r >=? s) && (year r <=? e)) eqn:E2;
    destruct ((year r >=? Z.max s s') && (year r <=? Z.min e e')) eqn:E3;
    rewrite ?IH; try reflexivity; exfalso;
    rewrite ?andb_true_iff, ?andb_false_iff, ?Z.geb_le, ?Z.leb_le,
      ?Z.geb_leb, ?Z.leb_gt in *; lia.
Qed.

(** X3. Year filters compose by intersecting their ranges, so a table
    that was already filtered gives the wide table of the intersection;
    in particular filtering twice with the same bounds changes
    nothing. *)
Theorem prepare_wide_of_filtered (s e s' e' : Z) (df : list RawRow) :
  prepare_wide (year_filter s' e' df) s e
    = prepare_wide df (Z.max s s') (Z.min e e') /\
  year_filter s e (year_filter s e df) = year_filter s e df.
Proof.
  split.
  - unfold prepare_wide. now rewrite year_filter_compose.
  - rewrite year_filter_compose. now rewrite Z.max_id, Z.min_id.
Qed.

Lemma year_filter_nil (s e : Z) (df : list RawRow) :
  (forall r, In r df -> year r < s \/ e < year r) ->
  year_filter s e df = [].
Proof.
  intros H. destruct (year_filter s e df) as [|r t] eqn:E; [reflexivity|].
  assert (Hr : In r (year_filter s e df)) by (rewrite E; now left).
  apply year_filter_In in Hr. destruct Hr as [Hr Hy].
  specialize (H r Hr). lia.
Qed.

(** X4. When no row of the table lies in the range of years (an empty
    table, or bounds with [end_year < start_year]) nothing fails: the
    wide table and the result table are empty, and the 16 codes of the
    basket and Portugal's code are reported as missing. *)
Theorem pipeline_without_rows_in_range (df : list RawRow)
  (start_year end_year : Z)
  (Hout : forall r, In r df -> year r < start_year \/ end_year < year r) :
  prepare_wide df start_year end_year = empty_wide /\
  pipeline df start_year end_year
    = Ok (DEVELOPED_16 ++ [PORTUGAL], empty_out).
Proof.
  unfold pipeline, prepare_wide.
  rewrite (year_filter_nil _ _ _ Hout). split; reflexivity.
Qed.

Lemma pipeline_without_rows_in_range_witness :
  pipeline boundary_rows 1900 1950
    = Ok (DEVELOPED_16 ++ [PORTUGAL], empty_out) /\
  pipeline boundary_rows 2022 1870
    = Ok (DEVELOPED_16 ++ [PORTUGAL], empty_out) /\
  pipeline [] 1870 2022 = Ok (DEVELOPED_16 ++ [PORTUGAL], empty_out).
Proof.
  split; [|split].
  - apply (pipeline_without_rows_in_range boundary_rows 1900 1950).
    intros r [<- | [<- | [<- | [<- | []]]]]; simpl; lia.
  - apply (pipeline_without_rows_in_range boundary_rows 2022 1870).
    intros r [<- | [<- | [<- | [<- | []]]]]; simpl; lia.
  - apply (pipeline_without_rows_in_range [] 1870 2022).
    intros r [].
Defined.

Lemma prepare_wide_columns_spec (df : list RawRow) (s e : Z) (c : string) :
  In c (columns (prepare_wide df s e)) <->
  exists r, In r df /\ s <= year r <= e /\
            code r = Some c /\ gdp_per_capita r <> None.
Proof.
  unfold prepare_wide. rewrite In_pivot_columns. split.
  - intros [y Hy].
    destruct (first y c (year_filter s e df)) as [v|] eqn:F; [|tauto].
    destruct (first_Some_inv _ _ _ _ F) as (r & Hr & G & V).
    apply in_group_inv in G. destruct G as [<- Hk].
    apply year_filter_In in Hr. exists r.
    rewrite V. repeat split; try tauto; discriminate.
  - intros (r & Hr & Hy & Hk & Hv). exists (year r).
    apply (first_observed _ _ _ r).
    + now apply year_filter_In.
    + now apply in_group_inv.
    + exact Hv.
Qed.

(** X5. The wide table has a row for exactly the years, and a column
    for exactly the codes, of the rows in range that carry both a code
    and a value; rows without a code or without a value bring neither a
    year nor a column. *)
Theorem wide_table_labels (df : list RawRow) (start_year end_year : Z) :
  let wide := prepare_wide df start_year end_year in
  (forall y, In y (index wide) <->
     exists r, In r df /\ year r = y /\ start_year <= y <= end_year /\
               code r <> None /\ gdp_per_capita r <> None) /\
  (forall c, In c (columns wide) <->
     exists r, In r df /\ start_year <= year r <= end_year /\
               code r = Some c /\ gdp_per_capita r <> None).
Proof.
  cbv zeta. split.
  - intros y. apply prepare_wide_index_spec.
  - intros c. apply prepare_wide_columns_spec.
Qed.

Lemma first_None_iff (y : Z) (c : string) (df : list RawRow) :
  first y c df = None <->
  forall r, In r df -> in_group y c r = true -> gdp_per_capita r = None.
Proof.
  split.
  - intros F r Hr G. destruct (gdp_per_capita r) as [v|] eqn:V;
      [|reflexivity].
    destruct (first_observed y c df r Hr G); [now rewrite V | exact F].
  - intros H. destruct (first y c df) as [v|] eqn:F; [|reflexivity].
    destruct (first_Some_inv _ _ _ _ F) as (r & Hr & G & V).
    rewrite (H r Hr G) in V. discriminate V.
Qed.

Lemma prepare_wide_loc (df : list RawRow) (s e y : Z) (c : string) :
  In y (index (prepare_wide df s e)) ->
  In c (columns (prepare_wide df s e)) ->
  loc (prepare_wide df s e) y c = Ok (first y c (year_filter s e df)).
Proof.
  unfold prepare_wide. intros Hy Hc. unfold loc.
  rewrite (proj2 (has_column_In _ c) Hc).
  rewrite pivot_index in Hy.
  unfold pivot_table at 1. cbn [rows].
  now rewrite (find_label (fun y c => first y c (year_filter s e df)) y _ Hy).
Qed.

(** X6. The wide table has a cell for every year of its index and every
    code of its columns.  The cell is missing exactly when no row in
    range with that year and that code carries a value, and a value in
    the cell is the value of such a row. *)
Theorem wide_table_cell (df : list RawRow) (start_year end_year y : Z)
  (c : string)
  (Hy : In y (index (prepare_wide df start_year end_year)))
  (Hc : In c (columns (prepare_wide df start_year end_year))) :
  exists v,
    loc (prepare_wide df start_year end_year) y c = Ok v /\
    (v = None <->
     forall r, In r df -> start_year <= year r <= end_year ->
               year r = y -> code r = Some c -> gdp_per_capita r = None) /\
    (forall q, v = Some q ->
     exists r, In r df /\ start_year <= year r <= end_year /\
               year r = y /\ code r = Some c /\ gdp_per_capita r = Some q).
Proof.
  exists (first y c (year_filter start_year end_year df)).
  split; [now apply prepare_wide_loc|]. split.
  - rewrite first_None_iff. split.
    + intros H r Hr Hrange Hyr Hk. apply H.
      * now apply year_filter_In.
      * now apply in_group_inv.
    + intros H r Hr G. apply year_filter_In in Hr.
      apply in_group_inv in G. apply H; tauto.
  - intros q F. destruct (first_Some_inv _ _ _ _ F) as (r & Hr & G & V).
    apply year_filter_In in Hr. apply in_group_inv in G.
    exists r. tauto.
Qed.

Lemma wide_table_cell_witness :
  In 1949 (index (prepare_wide sparse_rows 1870 2022)) /\
  In "GBR" (columns (prepare_wide sparse_rows 1870 2022)) /\
  loc (prepare_wide sparse_rows 1870 2022) 1949 "GBR" = Ok None.
Proof.
  assert (Hy : In 1949 (index (prepare_wide sparse_rows 1870 2022)))
    by (left; reflexivity).
  assert (Hc : In "GBR" (columns (prepare_wide sparse_rows 1870 2022)))
    by (left; reflexivity).
  destruct (wide_table_cell sparse_rows 1870 2022 1949 "GBR" Hy Hc)
    as (v & Hloc & Hnone & _).
  assert (E : v = None).
  { apply Hnone. intros r [<- | [<- | []]] _; simpl; intros; discriminate. }
  subst v. split; [exact Hy|]. split; [exact Hc | exact Hloc].
Defined.

(** X7. The wide table has no empty line: every year of its index has a
    value in some column, and every column has a value in some year. *)
Theorem wide_table_has_no_empty_line (df : list RawRow)
  (start_year end_year : Z) :
  let wide := prepare_wide df start_year end_year in
  Forall (fun y => exists c v,
              In c (columns wide) /\ loc wide y c = Ok (Some v))
    (index wide) /\
  Forall (fun c => exists y v,
              In y (index wide) /\ loc wide y c = Ok (Some v))
    (columns wide).
Proof.
  cbv zeta. unfold prepare_wide.
  set (rows_in_range := year_filter start_year end_year df).
  split; apply Forall_forall.
  - intros y Hy. apply In_pivot_index in Hy. destruct Hy as [c Hc].
    destruct (first y c rows_in_range) as [v|] eqn:F; [|tauto].
    exists c, v. split.
    + apply In_pivot_columns. exists y. now rewrite F.
    + rewrite pivot_loc; rewrite F; [reflexivity | discriminate].
  - intros c Hc. apply In_pivot_columns in Hc. destruct Hc as [y Hy].
    destruct (first y c rows_in_range) as [v|] eqn:F; [|tauto].
    exists y, v. split.
    + apply In_pivot_index. exists c. now rewrite F.
    + rewrite pivot_loc; rewrite F; [reflexivity | discriminate].
Qed.

Lemma string_compare_gt (a b : string) :
  String.compare a b = Gt -> String.compare b a = Lt.
Proof.
  intros H. rewrite String.compare_antisym, H. reflexivity.
Qed.

(** X8. The labels of the wide table are sorted and distinct: the
    column codes ascend in the order of strings, and no year and no code
    occurs twice. *)
Theorem wide_table_labels_sorted (df : list RawRow)
  (start_year end_year : Z) :
  let wide := prepare_wide df start_year end_year in
  StronglySorted string_lt (columns wide) /\
  NoDup (columns wide) /\
  NoDup (index wide).
Proof.
  cbv zeta.
  assert (Hc : StronglySorted string_lt
                 (columns (prepare_wide df start_year end_year))).
  { unfold prepare_wide, pivot_table. cbn [columns].
    apply (usort_sorted String.compare).
    - exact string_lt_trans.
    - exact string_compare_gt. }
  split; [exact Hc|]. split.
  - apply (sorted_NoDup string_lt string_lt_irrefl _ Hc).
  - apply (sorted_NoDup Z.lt Z.lt_irrefl).
    apply prepare_wide_index_ascending.
Qed.

(** ** The aggregator on any basket *)

(** X9. On a wide table with distinct column labels the aggregator
    does not raise, whatever basket of distinct codes and whatever code
    for Portugal it is given: every column it reads is guarded or was
    just written, and the columns of the result have the length of the
    index, whose years are the years of the result. *)
Theorem compute_never_raises (wide : DataFrame) (developed_16 : list string)
  (portugal_code : string)
  (Hlabels : NoDup (columns wide))
  (Hbasket : NoDup developed_16) :
  exists warn out,
    compute_portugal_vs_mean wide developed_16 portugal_code
      = Ok (warn, out) /\
    out_year out = index wide /\
    List.length (Portugal_gdp_pc out) = List.length (index wide) /\
    List.length (Media_16_gdp_pc out) = List.length (index wide) /\
    List.length (Portugal_pct_da_media_16 out) = List.length (index wide).
Proof.
  unfold compute_portugal_vs_mean.
  set (cols0 := filter (has_column wide) developed_16).
  rewrite (getitems_present wide cols0)
    by (intros c Hc; now apply filter_In in Hc).
  cbn [bind]. unfold setitem, count_axis1, s_map.
  rewrite map_map. cbn [fst snd].
  rewrite combine_map_r, map_map. cbn [fst snd rows].
  set (cols1 := if has_column _ "count_non_na" then _ else _).
  set (rows1 := map _ (rows wide)).
  assert (Hcount : has_column {| columns := cols1; rows := rows1 |}
                     "count_non_na" = true).
  { subst cols1.
    destruct (has_column {| columns := cols0; rows := rows wide |}
                "count_non_na") eqn:E.
    - exact E.
    - cbn [columns]. rewrite has_column_app, String.eqb_refl.
      apply orb_true_r. }
  rewrite getitems_present by (intros c Hc; now apply filter_In in Hc).
  cbn [bind rows]. unfold getitem. rewrite Hcount. cbn [bind rows].
  unfold mean_axis1, mask_setitem, s_binop, row_values. cbn [columns rows].
  subst rows1. rewrite !map_map. cbn [fst snd].
  rewrite combine_map_map, map_map. cbn [fst snd].
  unfold empty_series, index, s_index, s_values.
  destruct (has_column wide portugal_code); cbn [bind];
    rewrite ?map_map; cbn [fst snd];
    rewrite ?combine_map_map, ?map_map; cbn [fst snd];
    rewrite DataFrame_of_dict_maps; cbn [bind];
    eexists; eexists; (split; [reflexivity|]);
    cbn [out_year Portugal_gdp_pc Media_16_gdp_pc Portugal_pct_da_media_16];
    rewrite !length_map; auto.
Qed.

Lemma compute_never_raises_witness :
  NoDup (columns wide_without_portugal) /\
  NoDup ["GBR"; "FRA"; "count_non_na"] /\
  exists warn out,
    compute_portugal_vs_mean wide_without_portugal
      ["GBR"; "FRA"; "count_non_na"] "XYZ" = Ok (warn, out) /\
    out_year out = [1950].
Proof.
  assert (Hlabels : NoDup (columns wide_without_portugal))
    by (apply distinct_NoDup; reflexivity).
  assert (Hbasket : NoDup ["GBR"; "FRA"; "count_non_na"])
    by (apply distinct_NoDup; reflexivity).
  split; [exact Hlabels|]. split; [exact Hbasket|].
  destruct (compute_never_raises wide_without_portugal
              ["GBR"; "FRA"; "count_non_na"] "XYZ" Hlabels Hbasket)
    as (warn & out & E & Hy & _).
  exists warn, out. split; [exact E|]. rewrite Hy. reflexivity.
Defined.

(** ** The aggregator on the basket of the script *)

Lemma compute_on_basket (wide : DataFrame) :
  compute_portugal_vs_mean wide DEVELOPED_16 PORTUGAL =
  Ok (filter (fun c => negb (has_column wide c)) (DEVELOPED_16 ++ [PORTUGAL]),
      {| out_year := index wide;
         Portugal_gdp_pc := map (portugal_value wide PORTUGAL) (rows wide);
         Media_16_gdp_pc :=
           map (fun r => masked_mean (basket_values DEVELOPED_16 wide r))
             (rows wide);
         Portugal_pct_da_media_16 :=
           map (fun r => pct (portugal_value wide PORTUGAL r)
                           (masked_mean (basket_values DEVELOPED_16 wide r)))
             (rows wide) |}).
Proof.
  apply compute_closed_form, basket_has_no_count_column.
Qed.

Lemma count_occ_filter (p : string -> bool) (l : list string) (x : string) :
  count_occ string_dec (filter p l) x
  = if p x then count_occ string_dec l x else 0%nat.
Proof.
  induction l as [|a t IH]; simpl.
  - now destruct (p x).
  - destruct (p a) eqn:Pa; simpl; destruct (string_dec a x) as [->|Hne];
      rewrite IH; try rewrite Pa; reflexivity.
Qed.

Lemma filter_nil_iff {A} (p : A -> bool) (l : list A) :
  filter p l = [] <-> forall x, In x l -> p x = false.
Proof.
  induction l as [|a t IH]; simpl.
  - split; [intros _ x [] | reflexivity].
  - destruct (p a) eqn:Pa; split.
    + discriminate.
    + intros H. rewrite (H a (or_introl eq_refl)) in Pa. discriminate.
    + intros H x [<- | Hx]; [exact Pa | now apply IH].
    + intros H. apply IH. intros x Hx. apply H. now right.
Qed.

(** X10. The codes that the aggregator reports on standard error are the
    codes of the basket that are not columns of the wide table; nothing
    is reported exactly when the 16 are all there; and when Portugal's
    column is absent its code is reported twice, as a member of the
    basket and as Portugal's code. *)
Theorem missing_codes_report (wide : DataFrame) :
  exists warn out,
    compute_portugal_vs_mean wide DEVELOPED_16 PORTUGAL = Ok (warn, out) /\
    (forall c, In c warn <-> In c DEVELOPED_16 /\ has_column wide c = false) /\
    (warn = [] <-> forall c, In c DEVELOPED_16 -> has_column wide c = true) /\
    count_occ string_dec warn PORTUGAL
      = (if has_column wide PORTUGAL then 0 else 2)%nat.
Proof.
  eexists. eexists. split; [apply compute_on_basket|].
  assert (Hprt : In PORTUGAL DEVELOPED_16)
    by (unfold DEVELOPED_16, PORTUGAL; simpl; tauto).
  split; [|split].
  - intros c. rewrite filter_In, in_app_iff, negb_true_iff. split.
    + intros [[Hc | [<- | []]] Hn]; auto.
    + intros [Hc Hn]. auto.
  - rewrite filter_nil_iff. split.
    + intros H c Hc. specialize (H c (in_or_app _ _ _ (or_introl Hc))).
      now apply negb_false_iff in H.
    + intros H c Hc. apply negb_false_iff.
      apply in_app_iff in Hc. destruct Hc as [Hc | [<- | []]]; auto.
  - rewrite count_occ_filter. now destruct (has_column wide PORTUGAL).
Qed.

Lemma basket_values_ext (basket : list string) (w1 w2 : DataFrame)
  (r1 r2 : Z * (string -> cell)) :
  (forall c, In c basket ->
             has_column w1 c = has_column w2 c /\ snd r1 c = snd r2 c) ->
  basket_values basket w1 r1 = basket_values basket w2 r2.
Proof.
  unfold basket_values. induction basket as [|c t IH]; intros H; simpl;
    [reflexivity|].
  destruct (H c (or_introl eq_refl)) as [-> ->].
  f_equal. apply IH. intros x Hx. apply H. now right.
Qed.

Lemma map_Forall2 {A B C} (P : A -> B -> Prop) (f : A -> C) (g : B -> C)
  (l1 : list A) (l2 : list B) :
  Forall2 P l1 l2 -> (forall a b, P a b -> f a = g b) ->
  map f l1 = map g l2.
Proof.
  intros H Hfg. induction H as [|a b l1 l2 Hab _ IH]; simpl;
    [reflexivity|].
  now rewrite (Hfg a b Hab), IH.
Qed.

(** X11. The result depends on the wide table only through its years and
    the columns of the 16 basket codes: two wide tables that agree on
    them give the same report and the same result table, whatever their
    other columns hold. *)
Theorem result_ignores_other_columns (w1 w2 : DataFrame)
  (Hagree : agree_on_basket w1 w2) :
  compute_portugal_vs_mean w1 DEVELOPED_16 PORTUGAL
  = compute_portugal_vs_mean w2 DEVELOPED_16 PORTUGAL.
Proof.
  destruct Hagree as [Hcols Hrows].
  assert (Hprt : In PORTUGAL DEVELOPED_16)
    by (unfold DEVELOPED_16, PORTUGAL; simpl; tauto).
  rewrite !compute_on_basket. unfold index. do 2 f_equal.
  - apply filter_ext_in. intros c Hc. f_equal.
    apply in_app_iff in Hc. destruct Hc as [Hc | [<- | []]]; auto.
  - assert (Hbv : forall r1 r2,
               (fst r1 = fst r2 /\
                forall c, In c DEVELOPED_16 -> snd r1 c = snd r2 c) ->
               basket_values DEVELOPED_16 w1 r1
               = basket_values DEVELOPED_16 w2 r2).
    { intros r1 r2 [_ H]. apply basket_values_ext. auto. }
    assert (Hpv : forall r1 r2,
               (fst r1 = fst r2 /\
                forall c, In c DEVELOPED_16 -> snd r1 c = snd r2 c) ->
               portugal_value w1 PORTUGAL r1 = portugal_value w2 PORTUGAL r2).
    { intros r1 r2 [_ H]. unfold portugal_value.
      now rewrite (Hcols _ Hprt), (H _ Hprt). }
    f_equal.
    + apply (map_Forall2 _ _ _ _ _ Hrows). now intros a b [H _].
    + apply (map_Forall2 _ _ _ _ _ Hrows). exact Hpv.
    + apply (map_Forall2 _ _ _ _ _ Hrows). intros a b H.
      now rewrite (Hbv a b H).
    + apply (map_Forall2 _ _ _ _ _ Hrows). intros a b H.
      now rewrite (Hbv a b H), (Hpv a b H).
Qed.

Lemma result_ignores_other_columns_witness :
  agree_on_basket (prepare_wide scenario_with_others 1950 1950)
    scenario_wide /\
  pipeline scenario_with_others 1950 1950 = pipeline scenario_1950 1950 1950.
Proof.
  assert (H : agree_on_basket (prepare_wide scenario_with_others 1950 1950)
                scenario_wide).
  { split.
    - intros c Hc. unfold DEVELOPED_16 in Hc. simpl in Hc.
      repeat (destruct Hc as [<- | Hc]; [reflexivity|]). destruct Hc.
    - constructor; [|constructor]. split; [reflexivity|].
      intros c Hc. unfold DEVELOPED_16 in Hc. simpl in Hc.
      repeat (destruct Hc as [<- | Hc]; [reflexivity|]). destruct Hc. }
  split; [exact H|].
  exact (result_ignores_other_columns _ _ H).
Defined.

Lemma coverage_le_columns (wide : DataFrame) (r : Z * (string -> cell)) :
  (coverage DEVELOPED_16 wide r
   <= List.length (filter (has_column wide) DEVELOPED_16))%nat.
Proof.
  unfold coverage. induction DEVELOPED_16 as [|c t IH]; simpl; [lia|].
  destruct (has_column wide c); simpl; [|exact IH].
  destruct (negb (is_None (snd r c))); simpl; lia.
Qed.

Lemma pct_of_missing_mean (p : cell) : pct p None = NaN.
Proof.
  unfold pct. now destruct p.
Qed.

(** X12. When the wide table has fewer than 12 of the 16 basket codes
    among its columns, no year can reach the coverage of 12: the mean
    and the ratio are missing in every year. *)
Theorem too_few_basket_columns (wide : DataFrame)
  (Hfew : (List.length (filter (has_column wide) DEVELOPED_16) < 12)%nat) :
  exists warn out,
    compute_portugal_vs_mean wide DEVELOPED_16 PORTUGAL = Ok (warn, out) /\
    Media_16_gdp_pc out = map (fun _ => None) (index wide) /\
    Portugal_pct_da_media_16 out = map (fun _ => NaN) (index wide).
Proof.
  eexists. eexists. split; [apply compute_on_basket|].
  cbn [Media_16_gdp_pc Portugal_pct_da_media_16]. unfold index.
  rewrite !map_map.
  assert (Hmask : forall r,
             masked_mean (basket_values DEVELOPED_16 wide r) = None).
  { intros r. unfold masked_mean. rewrite basket_values_length.
    pose proof (coverage_le_columns wide r) as Hle.
    destruct (Nat.ltb_spec (coverage DEVELOPED_16 wide r) 12);
      [reflexivity | lia]. }
  split; apply map_ext; intros r; rewrite Hmask;
    [reflexivity | apply pct_of_missing_mean].
Qed.

Lemma too_few_basket_columns_witness :
  (List.length (filter (has_column wide_without_portugal) DEVELOPED_16)
   < 12)%nat /\
  exists warn out,
    compute_portugal_vs_mean wide_without_portugal DEVELOPED_16 PORTUGAL
      = Ok (warn, out) /\
    Media_16_gdp_pc out = [None] /\
    Portugal_pct_da_media_16 out = [NaN].
Proof.
  assert (H : (List.length
                 (filter (has_column wide_without_portugal) DEVELOPED_16)
               < 12)%nat) by (vm_compute; lia).
  split; [exact H|].
  exact (too_few_basket_columns wide_without_portugal H).
Defined.

(** ** Reading the ratio *)

Lemma Qcmult_lt_iff_r (x y z : Qc) :
  (0 < z -> (x * z < y * z <-> x < y))%Qc.
Proof.
  intros Hz. split.
  - intros H. destruct (Qclt_le_dec x y) as [L | G]; [exact L|].
    apply (Qcmult_le_compat_r _ _ z) in G; [|now apply Qclt_le_weak].
    destruct (Qcle_not_lt _ _ G H).
  - intros H. now apply Qcmult_lt_compat_r.
Qed.

Lemma Qcmult_eq_iff_r (x y z : Qc) :
  (z <> 0 -> (x * z = y * z <-> x = y))%Qc.
Proof.
  intros Hz. split; [|now intros ->].
  intros H. rewrite <- (Qcdiv_mult_l x z Hz), <- (Qcdiv_mult_l y z Hz).
  now rewrite H.
Qed.

Lemma hundred_positive : (0 < Zq 100)%Qc.
Proof. reflexivity. Qed.

Lemma ratio_times_mean (a b : Qc) :
  b <> 0%Qc -> (a / b * Zq 100 * b = a * Zq 100)%Qc.
Proof.
  intros Hb. field. exact Hb.
Qed.

(** X13. On a wide table with distinct column labels, in a year in
    which Portugal has a value and the mean is positive, the ratio is
    not missing: it is at most 100 when Portugal is at most the mean, at
    least 100 when Portugal is at least the mean, and exactly 100 when
    Portugal equals the mean. *)
Theorem ratio_against_100 (wide : DataFrame)
  (Hlabels : NoDup (columns wide)) :
  exists warn out,
    compute_portugal_vs_mean wide DEVELOPED_16 PORTUGAL = Ok (warn, out) /\
    Forall (fun rec =>
              let '(_, p, m, r) := rec in
              forall a b, p = Some a -> m = Some b -> (0 < b)%Qc ->
              isna r = false /\
              ((a <= b)%Qc -> float_le r (Fin (Zq 100))) /\
              ((b <= a)%Qc -> float_le (Fin (Zq 100)) r) /\
              (a = b -> r = Fin (Zq 100)))
      (records out).
Proof.
  destruct (compute_records wide) as (warn & out & E & _ & _ & _ & _ & Hrec).
  exists warn, out. split; [exact E|]. rewrite Hrec.
  apply Forall_forall. intros rec Hin. apply in_map_iff in Hin.
  destruct Hin as (r & <- & _). unfold result_record. cbv zeta.
  intros a b -> -> Hb.
  assert (Hb0 : b <> 0%Qc).
  { intros ->. exact (Qclt_not_eq _ _ Hb eq_refl). }
  rewrite (pct_value a b Hb0). cbn [isna float_le].
  pose proof (ratio_times_mean a b Hb0) as Hq.
  assert (Hbelow : ((a / b * Zq 100 < Zq 100)%Qc <-> (a < b)%Qc)).
  { rewrite <- (Qcmult_lt_iff_r _ _ b Hb), Hq, (Qcmult_comm (Zq 100) b).
    apply Qcmult_lt_iff_r, hundred_positive. }
  assert (Habove : ((Zq 100 < a / b * Zq 100)%Qc <-> (b < a)%Qc)).
  { rewrite <- (Qcmult_lt_iff_r _ _ b Hb), Hq, (Qcmult_comm (Zq 100) b).
    apply Qcmult_lt_iff_r, hundred_positive. }
  split; [reflexivity|]. split; [|split].
  - intros Hle. apply Qcnot_lt_le. intros H. apply Habove in H.
    exact (Qcle_not_lt _ _ Hle H).
  - intros Hle. apply Qcnot_lt_le. intros H. apply Hbelow in H.
    exact (Qcle_not_lt _ _ Hle H).
  - intros <-. f_equal. apply (Qcmult_eq_iff_r _ _ a Hb0). rewrite Hq.
    apply Qcmult_comm.
Qed.

Lemma ratio_against_100_witness :
  NoDup (columns coverage_wide) /\
  exists warn out,
    compute_portugal_vs_mean coverage_wide DEVELOPED_16 PORTUGAL
      = Ok (warn, out) /\
    Forall (fun rec =>
              let '(_, p, m, r) := rec in
              forall a b, p = Some a -> m = Some b -> (0 < b)%Qc ->
              a = b -> r = Fin (Zq 100))
      (records out).
Proof.
  assert (Hlabels : NoDup (columns coverage_wide))
    by (apply distinct_NoDup; reflexivity).
  split; [exact Hlabels|].
  destruct (ratio_against_100 coverage_wide Hlabels) as (warn & out & E & H).
  exists warn, out. split; [exact E|].
  apply (Forall_impl _ (P := fun rec =>
              let '(_, p, m, r) := rec in
              forall a b, p = Some a -> m = Some b -> (0 < b)%Qc ->
              isna r = false /\
              ((a <= b)%Qc -> float_le r (Fin (Zq 100))) /\
              ((b <= a)%Qc -> float_le (Fin (Zq 100)) r) /\
              (a = b -> r = Fin (Zq 100)))); [|exact H].
  intros [[[y p] m] r] Hrec a b Hp Hm Hb.
  exact (proj2 (proj2 (proj2 (Hrec a b Hp Hm Hb)))).
Defined.

(** X22. On a wide table with distinct column labels, in every year in
    which fewer than 12 of the 16 basket codes have a value, the mean and
    the ratio of that year are missing, whatever Portugal's value. *)
Theorem mean_masked_below_12 (wide : DataFrame)
  (Hlabels : NoDup (columns wide)) :
  exists warn out,
    compute_portugal_vs_mean wide DEVELOPED_16 PORTUGAL = Ok (warn, out) /\
    Forall2 (fun r rec =>
               let '(y, _, m, ratio) := rec in
               y = fst r /\
               ((coverage DEVELOPED_16 wide r < 12)%nat ->
                m = None /\ ratio = NaN))
      (rows wide) (records out).
Proof.
  destruct (compute_records wide) as (warn & out & E & _ & _ & _ & _ & Hrec).
  exists warn, out. split; [exact E|]. rewrite Hrec.
  clear. induction (rows wide) as [|r t IH]; simpl; [constructor|].
  constructor; [|exact IH].
  split; [reflexivity|]. intros Hlt.
  unfold masked_mean. rewrite basket_values_length.
  apply Nat.ltb_lt in Hlt. rewrite Hlt.
  split; [reflexivity|]. unfold pct, truediv, of_cell.
  now destruct (portugal_value wide PORTUGAL r).
Qed.

Lemma mean_masked_below_12_witness :
  NoDup (columns coverage_wide) /\
  exists warn out,
    compute_portugal_vs_mean coverage_wide DEVELOPED_16 PORTUGAL
      = Ok (warn, out) /\
    List.length (records out) = List.length (rows coverage_wide).
Proof.
  assert (Hlabels : NoDup (columns coverage_wide))
    by (apply distinct_NoDup; reflexivity).
  split; [exact Hlabels|].
  destruct (mean_masked_below_12 coverage_wide Hlabels)
    as (warn & out & E & H).
  exists warn, out. split; [exact E|].
  symmetry. exact (Forall2_length H).
Defined.

(** ** What the pipeline reads of the raw table *)

Lemma Forall2_map_same {A B C} (P : B -> C -> Prop) (f : A -> B)
  (g : A -> C) (l : list A) :
  (forall x, P (f x) (g x)) -> Forall2 P (map f l) (map g l).
Proof.
  intros H. induction l as [|x t IH]; simpl; constructor; auto.
Qed.

Lemma pivot_index_ext (l1 l2 : list RawRow) :
  (forall y c, first y c l1 = first y c l2) ->
  index (pivot_table l1) = index (pivot_table l2).
Proof.
  intros H.
  apply (sorted_unique Z.lt Z.lt_irrefl Z.lt_trans).
  - rewrite pivot_index. apply usort_ascending.
  - rewrite pivot_index. apply usort_ascending.
  - intros y. rewrite !In_pivot_index.
    split; intros [c Hc]; exists c; [rewrite <- H | rewrite H]; exact Hc.
Qed.

Lemma pivot_has_column_ext (l1 l2 : list RawRow) (c : string) :
  (forall y c, first y c l1 = first y c l2) ->
  has_column (pivot_table l1) c = has_column (pivot_table l2) c.
Proof.
  intros H.
  assert (Hiff : In c (columns (pivot_table l1))
                 <-> In c (columns (pivot_table l2))).
  { rewrite !In_pivot_columns.
    split; intros [y Hy]; exists y; [rewrite <- H | rewrite H]; exact Hy. }
  rewrite <- !has_column_In in Hiff.
  destruct (has_column (pivot_table l1) c),
    (has_column (pivot_table l2) c); try reflexivity.
  - symmetry. now apply Hiff.
  - now apply Hiff.
Qed.

Lemma pivot_rows (l : list RawRow) :
  rows (pivot_table l)
  = map (fun y => (y, fun c => first y c l)) (index (pivot_table l)).
Proof.
  now rewrite pivot_index.
Qed.

(** The aggregation reads the long table only through the first
    non-missing value of each year and code. *)
Lemma compute_pivot_ext (l1 l2 : list RawRow) :
  (forall y c, first y c l1 = first y c l2) ->
  compute_portugal_vs_mean (pivot_table l1) DEVELOPED_16 PORTUGAL
  = compute_portugal_vs_mean (pivot_table l2) DEVELOPED_16 PORTUGAL.
Proof.
  intros H. rewrite !compute_on_basket.
  pose proof (pivot_index_ext l1 l2 H) as Hidx.
  assert (Hcol : forall c, has_column (pivot_table l1) c
                           = has_column (pivot_table l2) c)
    by (intros c; now apply pivot_has_column_ext).
  assert (Hbv : forall y,
             basket_values DEVELOPED_16 (pivot_table l1)
               (y, fun c => first y c l1)
             = basket_values DEVELOPED_16 (pivot_table l2)
                 (y, fun c => first y c l2)).
  { intros y. apply basket_values_ext. intros c _. split; [apply Hcol|].
    apply H. }
  assert (Hpv : forall y,
             portugal_value (pivot_table l1) PORTUGAL
               (y, fun c => first y c l1)
             = portugal_value (pivot_table l2) PORTUGAL
                 (y, fun c => first y c l2)).
  { intros y. unfold portugal_value. cbn [snd]. now rewrite Hcol, H. }
  rewrite !pivot_rows, Hidx, !map_map. do 2 f_equal.
  - apply filter_ext. intros c. now rewrite Hcol.
  - f_equal; apply map_ext; intros y.
    + apply Hpv.
    + now rewrite Hbv.
    + now rewrite Hbv, Hpv.
Qed.

Lemma year_filter_filter (p : RawRow -> bool) (s e : Z) (l : list RawRow) :
  year_filter s e (filter p l) = filter p (year_filter s e l).
Proof.
  unfold year_filter. induction l as [|r t IH]; simpl; [reflexivity|].
  destruct (p r) eqn:P; simpl;
    destruct ((year r >=? s) && (year r <=? e)); simpl;
    rewrite ?P, IH; reflexivity.
Qed.

Lemma first_filter_observed (y : Z) (c : string) (l : list RawRow) :
  first y c (filter observed l) = first y c l.
Proof.
  induction l as [|r t IH]; [reflexivity|].
  cbn [filter first].
  destruct (observed r) eqn:O.
  - cbn [first]. now rewrite IH.
  - rewrite IH. unfold observed in O.
    destruct (code r) as [k|] eqn:K.
    + destruct (gdp_per_capita r) as [v|]; [discriminate O|].
      now destruct (in_group y c r).
    + unfold in_group. now rewrite K, andb_false_r.
Qed.

(** X14. Rows without a code (aggregates such as regions) and rows
    without a value play no role: removing them from the raw table
    leaves the report and the result table unchanged. *)
Theorem rows_without_code_or_value_are_ignored (df : list RawRow)
  (start_year end_year : Z) :
  pipeline (filter observed df) start_year end_year
  = pipeline df start_year end_year.
Proof.
  unfold pipeline, prepare_wide. rewrite year_filter_filter.
  apply compute_pivot_ext. intros y c. apply first_filter_observed.
Qed.

Example ragged_rows_reduce :
  filter observed ragged_rows = [obs 1950 "Portugal" "PRT" 80] /\
  pipeline ragged_rows 1870 2022
  = pipeline [obs 1950 "Portugal" "PRT" 80] 1870 2022.
Proof.
  split; [reflexivity|]. vm_compute. reflexivity.
Qed.

Lemma year_filter_rename (f : string -> string) (s e : Z)
  (l : list RawRow) :
  year_filter s e (map (rename_entity f) l)
  = map (rename_entity f) (year_filter s e l).
Proof.
  unfold year_filter. induction l as [|r t IH]; simpl; [reflexivity|].
  destruct ((year r >=? s) && (year r <=? e)); simpl; now rewrite IH.
Qed.

Lemma first_rename (f : string -> string) (y : Z) (c : string)
  (l : list RawRow) :
  first y c (map (rename_entity f) l) = first y c l.
Proof.
  induction l as [|r t IH]; simpl; [reflexivity|].
  unfold in_group. simpl. now rewrite IH.
Qed.

(** X15. The entity names are never read: rewriting them in any way
    leaves the report and the result table unchanged. *)
Theorem entity_names_are_not_read (f : string -> string)
  (df : list RawRow) (start_year end_year : Z) :
  pipeline (map (rename_entity f) df) start_year end_year
  = pipeline df start_year end_year.
Proof.
  unfold pipeline, prepare_wide. rewrite year_filter_rename.
  apply compute_pivot_ext. intros y c. apply first_rename.
Qed.

Lemma first_consistent (y : Z) (c : string) (l : list RawRow) (r : RawRow) :
  consistent l -> In r l -> in_group y c r = true ->
  first y c l = gdp_per_capita r.
Proof.
  intros Hcons Hr G. destruct (first y c l) as [v|] eqn:F.
  - destruct (first_Some_inv _ _ _ _ F) as (r0 & Hr0 & G0 & V0).
    rewrite <- V0. apply in_group_inv in G, G0.
    destruct G as [Gy Gc], G0 as [G0y G0c].
    apply Hcons; try assumption; congruence.
  - symmetry. exact (proj1 (first_None_iff y c l) F r Hr G).
Qed.

Lemma consistent_year_filter (s e : Z) (l : list RawRow) :
  consistent l -> consistent (year_filter s e l).
Proof.
  intros H r r' Hr Hr'. apply year_filter_In in Hr, Hr'.
  apply H; tauto.
Qed.

Lemma first_same_rows (y : Z) (c : string) (l1 l2 : list RawRow) :
  (forall r, In r l1 <-> In r l2) -> consistent l1 ->
  first y c l1 = first y c l2.
Proof.
  intros Hsame Hcons.
  assert (Hcons2 : consistent l2).
  { intros r r' Hr Hr'. apply Hsame in Hr, Hr'. now apply Hcons. }
  destruct (first y c l1) as [v|] eqn:F1.
  - destruct (first_Some_inv _ _ _ _ F1) as (r & Hr & G & V).
    rewrite <- V. symmetry.
    apply first_consistent; [exact Hcons2 | now apply Hsame | exact G].
  - destruct (first y c l2) as [v|] eqn:F2; [|reflexivity].
    destruct (first_Some_inv _ _ _ _ F2) as (r & Hr & G & V).
    apply Hsame in Hr.
    rewrite (proj1 (first_None_iff y c l1) F1 r Hr G) in V. discriminate V.
Qed.

(** X16. When the rows that share a year and a code never disagree on
    the value, the result depends only on which rows the raw table
    holds, not on their order nor on their repetition. *)
Theorem row_order_is_irrelevant (df df' : list RawRow)
  (start_year end_year : Z)
  (Hsame : forall r, In r df <-> In r df')
  (Hcons : consistent df) :
  pipeline df start_year end_year = pipeline df' start_year end_year.
Proof.
  unfold pipeline, prepare_wide. apply compute_pivot_ext. intros y c.
  apply first_same_rows.
  - intros r. rewrite !year_filter_In, Hsame. tauto.
  - now apply consistent_year_filter.
Qed.

Lemma row_order_is_irrelevant_witness :
  consistent sparse_rows /\
  pipeline sparse_rows 1870 2022
  = pipeline (rev sparse_rows ++ sparse_rows) 1870 2022.
Proof.
  assert (H : consistent sparse_rows).
  { intros r r' [<- | [<- | []]] [<- | [<- | []]]; simpl; intros;
      try reflexivity; discriminate. }
  split; [exact H|].
  apply (row_order_is_irrelevant sparse_rows (rev sparse_rows ++ sparse_rows)).
  - intros r. rewrite in_app_iff, <- in_rev. tauto.
  - exact H.
Defined.

(** ** The runs of the program *)

(** X17. When the download fails the exception is not caught: it
    leaves [main] after the first message, nothing is written, and for
    an [Exception] the exit status is 1. *)
Theorem run_download_failure (args : Args) (w : World) (e : exn)
  (Hdownload : download_csv w (source_url args) = Raise e) :
  main args w = ([Stdout Downloading], inr (Uncaught e)) /\
  (is_Exception e = true -> run args w = ([Stdout Downloading], 1)).
Proof.
  unfold run, main. rewrite Hdownload. split; [reflexivity|].
  intros He. cbn. destruct e; try reflexivity; discriminate He.
Qed.

Lemma run_download_failure_witness :
  main default_args world_offline
    = ([Stdout Downloading], inr (Uncaught (HTTPError "no route to host"))) /\
  run default_args world_offline = ([Stdout Downloading], 1).
Proof.
  destruct (run_download_failure default_args world_offline
              (HTTPError "no route to host") eq_refl) as [Hmain Hrun].
  split; [exact Hmain | exact (Hrun eq_refl)].
Defined.

(** X18. When nothing fails the run ends with status 0, after writing
    the CSV and then the image, each followed by its message; standard
    error only receives the report of the basket codes without data. *)
Theorem run_success (args : Args) (w : World) (df : RawFrame)
  (cols : option string * option string * option string * option string)
  (wide : DataFrame) (warn : list string) (out : OutFrame)
  (Hdownload : download_csv w (source_url args) = Ok df)
  (Hcols : detect_columns (raw_columns df) = Ok cols)
  (Hwide : prepare_wide_df df cols (start_year args) (end_year args)
           = Ok (Wide wide))
  (Hagg : compute_portugal_vs_mean wide DEVELOPED_16 PORTUGAL
          = Ok (warn, out))
  (Hcsv : to_csv w out (out_csv args) = Ok tt)
  (Hplot : plot_ratio w out (out_png args) = Ok tt) :
  run args w =
    (preamble df cols ++ missing_report warn
     ++ [FileWritten (out_csv args); Stdout (CsvSaved (out_csv args));
         FileWritten (out_png args); Stdout (PngSaved (out_png args))], 0).
Proof.
  unfold run, main. rewrite Hdownload. cbn. rewrite Hcols. cbn.
  rewrite Hwide. cbn. rewrite Hagg. cbn.
  destruct warn; cbn; rewrite Hcsv, Hplot; reflexivity.
Qed.

Lemma run_success_witness :
  run default_args world_fine =
    ([Stdout Downloading; Stdout (AvailableColumns owid_header);
      Stdout (UsingColumns (Some "Year", Some "Entity", Some "Code",
                            Some "GDP per capita"));
      FileWritten "portugal_vs_16_developed.csv";
      Stdout (CsvSaved "portugal_vs_16_developed.csv");
      FileWritten "grafico_portugal_pct_media16.png";
      Stdout (PngSaved "grafico_portugal_pct_media16.png")], 0).
Proof.
  apply (run_success default_args world_fine scenario_table
           (Some "Year", Some "Entity", Some "Code", Some "GDP per capita")
           (prepare_wide scenario_1950 1870 2022) [] scenario_out);
    reflexivity.
Defined.

(** X19. When the CSV cannot be written the exception is not caught: it
    leaves [main], the plot is not attempted and no file is written. *)
Theorem run_csv_failure (args : Args) (w : World) (df : RawFrame)
  (cols : option string * option string * option string * option string)
  (wide : DataFrame) (warn : list string) (out : OutFrame) (e : exn)
  (Hdownload : download_csv w (source_url args) = Ok df)
  (Hcols : detect_columns (raw_columns df) = Ok cols)
  (Hwide : prepare_wide_df df cols (start_year args) (end_year args)
           = Ok (Wide wide))
  (Hagg : compute_portugal_vs_mean wide DEVELOPED_16 PORTUGAL
          = Ok (warn, out))
  (Hcsv : to_csv w out (out_csv args) = Raise e) :
  main args w
  = (preamble df cols ++ missing_report warn, inr (Uncaught e)).
Proof.
  unfold main. rewrite Hdownload. cbn. rewrite Hcols. cbn.
  rewrite Hwide. cbn. rewrite Hagg. cbn.
  destruct warn; cbn; rewrite Hcsv; reflexivity.
Qed.

Lemma run_csv_failure_witness :
  main default_args world_csv_fails =
    ([Stdout Downloading; Stdout (AvailableColumns owid_header);
      Stdout (UsingColumns (Some "Year", Some "Entity", Some "Code",
                            Some "GDP per capita"))],
     inr (Uncaught (OSError "read-only file system"))).
Proof.
  apply (run_csv_failure default_args world_csv_fails scenario_table
           (Some "Year", Some "Entity", Some "Code", Some "GDP per capita")
           (prepare_wide scenario_1950 1870 2022) [] scenario_out
           (OSError "read-only file system"));
    reflexivity.
Defined.

(** X20. An exception of the plot that is not an [Exception] (an
    interruption by the user) is not caught: it leaves [main] without a
    message for the plot, the CSV being already written. *)
Theorem run_plot_interrupted (args : Args) (w : World) (df : RawFrame)
  (cols : option string * option string * option string * option string)
  (wide : DataFrame) (warn : list string) (out : OutFrame) (e : exn)
  (Hdownload : download_csv w (source_url args) = Ok df)
  (Hcols : detect_columns (raw_columns df) = Ok cols)
  (Hwide : prepare_wide_df df cols (start_year args) (end_year args)
           = Ok (Wide wide))
  (Hagg : compute_portugal_vs_mean wide DEVELOPED_16 PORTUGAL
          = Ok (warn, out))
  (Hcsv : to_csv w out (out_csv args) = Ok tt)
  (Hplot : plot_ratio w out (out_png args) = Raise e)
  (Hexc : is_Exception e = false) :
  main args w =
    (preamble df cols ++ missing_report warn
     ++ [FileWritten (out_csv args); Stdout (CsvSaved (out_csv args))],
     inr (Uncaught e)).
Proof.
  unfold main. rewrite Hdownload. cbn. rewrite Hcols. cbn.
  rewrite Hwide. cbn. rewrite Hagg. cbn.
  destruct warn; cbn; rewrite Hcsv, Hplot, Hexc; reflexivity.
Qed.

Lemma run_plot_interrupted_witness :
  main default_args world_interrupted =
    ([Stdout Downloading; Stdout (AvailableColumns owid_header);
      Stdout (UsingColumns (Some "Year", Some "Entity", Some "Code",
                            Some "GDP per capita"));
      FileWritten "portugal_vs_16_developed.csv";
      Stdout (CsvSaved "portugal_vs_16_developed.csv")],
     inr (Uncaught KeyboardInterrupt)).
Proof.
  apply (run_plot_interrupted default_args world_interrupted scenario_table
           (Some "Year", Some "Entity", Some "Code", Some "GDP per capita")
           (prepare_wide scenario_1950 1870 2022) [] scenario_out
           KeyboardInterrupt);
    reflexivity.
Defined.

Ltac trace_facts :=
  repeat match goal with
    | |- _ /\ _ => split
    | |- forall _, _ => intro
    | H : In _ _ |- _ => simpl in H
    | H : _ \/ _ |- _ => destruct H
    | H : False |- _ => destruct H
    | H : FileWritten _ = FileWritten _ |- _ => injection H as <-
    | H : _ = _ |- _ => discriminate H
    end;
  simpl; auto 10; try congruence.

(** X21. In every run of [main] from the return of [parse_args] on,
    whatever the network, the file system and the plotting library
    answer and whatever the columns of the downloaded table: the first
    message is the one of the download; the only files written are the
    CSV and the image; the image is written only after the CSV; [main]
    ends normally only with the CSV written; and it calls [sys.exit],
    with status 1, only before any file is written. *)
Theorem run_invariants (args : Args) (w : World) :
  let trace := fst (main args w) in
  let ending := snd (main args w) in
  hd_error trace = Some (Stdout Downloading) /\
  (forall path, In (FileWritten path) trace ->
                path = out_csv args \/ path = out_png args) /\
  (In (FileWritten (out_png args)) trace ->
   In (FileWritten (out_csv args)) trace) /\
  (ending = inl tt -> In (FileWritten (out_csv args)) trace) /\
  (forall n, ending = inr (Exit n) ->
             n = 1 /\ forall path, ~ In (FileWritten path) trace).
Proof.
  cbv zeta. unfold main.
  destruct (download_csv w (source_url args)) as [df|e]; cbn;
    [|trace_facts].
  destruct (detect_columns (raw_columns df)) as [cols|e] eqn:D; cbn.
  2:{ destruct (detect_columns_raises _ _ D) as [missing ->]. cbn.
      unfold not. trace_facts. }
  destruct (prepare_wide_df df cols (start_year args) (end_year args))
    as [[wide|]|e]; cbn; [| |unfold not; trace_facts].
  - destruct (compute_records wide) as (warn & out & E & _).
    rewrite E. cbn.
    destruct warn; cbn;
      (destruct (to_csv w out (out_csv args)) as [[]|e];
       [destruct (plot_ratio w out (out_png args)) as [[]|e];
        [|destruct (is_Exception e)]|]);
      cbn; unfold not; trace_facts.
  - destruct (duplicate_labels w) as [warn [out|e]]; cbn;
      destruct warn; cbn; try (unfold not; trace_facts; fail);
      (destruct (to_csv w out (out_csv args)) as [[]|e];
       [destruct (plot_ratio w out (out_png args)) as [[]|e];
        [|destruct (is_Exception e)]|]);
      cbn; unfold not; trace_facts.
Qed.

Lemma no_year_label (y c k v : string) (columns : list string) :
  y = c \/ y = k \/ y = v -> ~ In "year" columns ->
  labelled (Some y, Some c, Some k, Some v) "year" columns = [].
Proof.
  intros Hshared Hyear. unfold labelled.
  induction columns as [|l t IH]; cbn [filter]; [reflexivity|].
  rewrite IH by (intros H; apply Hyear; now right).
  assert (Hl : l <> "year") by (intros ->; apply Hyear; now left).
  unfold rename_label, is_key.
  destruct (String.eqb v l) eqn:Ev; [reflexivity|].
  destruct (String.eqb k l) eqn:Ek; [reflexivity|].
  destruct (String.eqb c l) eqn:Ec; [reflexivity|].
  destruct (String.eqb y l) eqn:Ey.
  - apply String.eqb_eq in Ey. subst l.
    destruct Hshared as [<- | [<- | <-]];
      rewrite String.eqb_refl in *; discriminate.
  - apply String.eqb_neq in Hl. now rewrite Hl.
Qed.

(** X23. When the column detected for the year is also the one
    detected for the country, the code or the value, and no column is
    named [year], the renaming leaves no column labelled [year]: the
    filter on the year raises a [KeyError] that nobody catches, after
    the message of the columns used, nothing is written and the exit
    status is 1. *)
Theorem run_year_label_lost (args : Args) (w : World) (df : RawFrame)
  (y c k v : string)
  (Hdownload : download_csv w (source_url args) = Ok df)
  (Hcols : detect_columns (raw_columns df)
           = Ok (Some y, Some c, Some k, Some v))
  (Hshared : y = c \/ y = k \/ y = v)
  (Hyear : ~ In "year" (raw_columns df)) :
  main args w =
    (preamble df (Some y, Some c, Some k, Some v),
     inr (Uncaught (KeyError (Lstr "year")))) /\
  run args w = (preamble df (Some y, Some c, Some k, Some v), 1).
Proof.
  assert (Hmain : main args w =
    (preamble df (Some y, Some c, Some k, Some v),
     inr (Uncaught (KeyError (Lstr "year"))))).
  { unfold main. rewrite Hdownload. cbn. rewrite Hcols. cbn.
    unfold prepare_wide_df. rewrite (no_year_label y c k v _ Hshared Hyear).
    reflexivity. }
  split; [exact Hmain|]. unfold run. rewrite Hmain. reflexivity.
Qed.

Lemma run_year_label_lost_witness :
  run default_args world_year_in_value =
    ([Stdout Downloading;
      Stdout (AvailableColumns ["Entity"; "Code"; "GDP per capita by year"]);
      Stdout (UsingColumns (Some "GDP per capita by year", Some "Entity",
                            Some "Code", Some "GDP per capita by year"))],
     1).
Proof.
  refine (proj2 (run_year_label_lost default_args world_year_in_value
                   year_in_value_table "GDP per capita by year" "Entity"
                   "Code" "GDP per capita by year" eq_refl eq_refl _ _)).
  - right. right. reflexivity.
  - simpl. intros [H | [H | [H | []]]]; discriminate H.
Defined.
